(** * Student-system: the record manager, its validation rules, the
      natural-language query filter and the pickle-backed storage.

    A shallow embedding of [student_model.py], [student_manager.py],
    [student_storage.py], [storage_interface.py] and [llm_query_agent.py].

    Conventions of the embedding.
    - A Python [str] is a [string]: the sequence of the bytes of its UTF-8
      encoding.  Substring search and the ordering of strings on such byte
      sequences coincide with Python's on code points.  The methods whose
      result depends on the Unicode tables, [str.lower()] and
      [str.isalnum()], are the fields [str_lower] and [str_isalnum] of the
      class [PyUnicode]: any functions that on ASCII text are the ASCII
      lowering and the ASCII letter-or-digit test, as Python's are.
      Definitions and theorems hold for every such pair; [py_model] is one
      that computes.  The keyword tests of the query agent lower-case with
      the ASCII [PyStr.lower]: the keywords are ASCII or caseless and no
      character outside ASCII lower-cases into one of them.
    - A Python [int] is a [Z]; the fields of [Student] have the types the
      dataclass declares, so [isinstance(age, int)] holds by typing.
    - A Python [dict] is an association list in insertion order with
      pairwise distinct keys ([dict_wf]).
    - A raised exception is the [Raise] case of [result]; the methods of
      [StudentManager] run in a state-and-exception monad over the store
      [self._students].  Objects are held by value: in a store whose keys
      are the ids of their records no two keys hold the same object.
    - Console output is modelled for the storage class only (it is the
      only trace a failed load or save leaves). *)

From Stdlib Require Import String Ascii ZArith NArith List Bool Lia.
From Stdlib Require Import Permutation Sorted Orders Mergesort.
From Stdlib Require Import Relations RelationClasses.
Import ListNotations.

Local Open Scope string_scope.
Local Open Scope Z_scope.

(** ** Python string primitives *)

Module PyStr.

Definition is_upper (c : ascii) : bool :=
    let n := N_of_ascii c in ((65 <=? n) && (n <=? 90))%N.

Definition is_lower (c : ascii) : bool :=
    let n := N_of_ascii c in ((97 <=? n) && (n <=? 122))%N.

Definition is_digit (c : ascii) : bool :=
    let n := N_of_ascii c in ((48 <=? n) && (n <=? 57))%N.

Definition lower_char (c : ascii) : ascii :=
    if is_upper c then ascii_of_N (N_of_ascii c + 32) else c.

  (** The ASCII lowering: [s.lower()] when [s] is ASCII text. *)
Fixpoint lower (s : string) : string :=
    match s with
    | EmptyString => EmptyString
    | String c s' => String (lower_char c) (lower s')
    end.

Definition isalnum_char (c : ascii) : bool :=
    is_digit c || is_upper c || is_lower c.

Fixpoint all_chars (p : ascii -> bool) (s : string) : bool :=
    match s with
    | EmptyString => true
    | String c s' => p c && all_chars p s'
    end.

  (** [s.isalnum()] when [s] is ASCII text: every character is a digit
      or a letter and there is at least one. *)
Definition isalnum (s : string) : bool :=
    match s with
    | EmptyString => false
    | _ => all_chars isalnum_char s
    end.

  (** [bool(s)]: a string is truthy when it is not empty. *)
Definition truthy (s : string) : bool :=
    match s with
    | EmptyString => false
    | _ => true
    end.

  (** [sub in s] *)
Fixpoint contains (sub s : string) : bool :=
    String.prefix sub s
    || match s with
       | EmptyString => false
       | String _ s' => contains sub s'
       end.

  (** [len(s)] *)
Definition len (s : string) : Z := Z.of_nat (String.length s).

  (** ASCII characters and ASCII text. *)
Definition is_ascii_char (c : ascii) : bool := (N_of_ascii c <? 128)%N.

Definition is_ascii (s : string) : bool := all_chars is_ascii_char s.

End PyStr.

Notation "sub 'in_str' s" := (PyStr.contains sub s) (at level 70, no associativity).

(** Python's [str.lower()] and [str.isalnum()], on UTF-8 encoded text.
    What is known of them: on ASCII text they are the ASCII lowering and
    the test that the text is not empty and made of ASCII letters and
    digits. *)
Class PyUnicode := {
  str_lower : string -> string;
  str_isalnum : string -> bool;
  str_lower_ascii :
    forall s, PyStr.is_ascii s = true -> str_lower s = PyStr.lower s;
  str_isalnum_ascii :
    forall s, PyStr.is_ascii s = true -> str_isalnum s = PyStr.isalnum s
}.

(** ** [student_model.py] *)

Record Student := mkStudent {
  sid : string;
  name : string;
  age : Z;
  gender : string;
  major : string
}.

(** The exception classes.  [StudentAlreadyExistsError] and
    [StudentNotFoundError] are subclasses of [StudentError]; [PyException]
    stands for any exception outside that hierarchy ([OSError],
    [KeyError], [pickle.PicklingError], ...) with its text. *)
Inductive exn :=
| StudentError (msg : string)
| StudentAlreadyExistsError (id : string)
| StudentNotFoundError (id : string)
| PyException (msg : string).

(** [str(e)] *)
Definition exn_message (e : exn) : string :=
  match e with
  | StudentError msg => msg
  | StudentAlreadyExistsError id => "Student ID " ++ id ++ " already exists."
  | StudentNotFoundError id => "No student found with ID " ++ id ++ "."
  | PyException msg => msg
  end.

(** [isinstance(e, StudentError)] *)
Definition is_StudentError (e : exn) : bool :=
  match e with
  | PyException _ => false
  | _ => true
  end.

Inductive result (A : Type) :=
| Ok (a : A)
| Raise (e : exn).
Arguments Ok {A} a.
Arguments Raise {A} e.

(** ** Python dictionaries, in insertion order *)

Section Dict.
Context {V : Type}.

Definition dict := list (string * V).

  (** [d.get(k)] *)
Fixpoint dict_get (k : string) (d : dict) : option V :=
    match d with
    | [] => None
    | (k', v) :: d' => if String.eqb k' k then Some v else dict_get k d'
    end.

  (** [k in d] *)
Definition dict_mem (k : string) (d : dict) : bool :=
    match dict_get k d with
    | Some _ => true
    | None => false
    end.

  (** [d[k] = v]: an existing key keeps its place, a new one goes last. *)
Fixpoint dict_set (k : string) (v : V) (d : dict) : dict :=
    match d with
    | [] => [(k, v)]
    | (k', v') :: d' =>
        if String.eqb k' k then (k', v) :: d' else (k', v') :: dict_set k v d'
    end.

  (** [del d[k]] for a key that is present. *)
Fixpoint dict_del (k : string) (d : dict) : dict :=
    match d with
    | [] => []
    | (k', v') :: d' =>
        if String.eqb k' k then d' else (k', v') :: dict_del k d'
    end.

  (** [d.keys()], [d.values()] *)
Definition dict_keys (d : dict) : list string := map fst d.
Definition dict_values (d : dict) : list V := map snd d.

  (** The keys of a dictionary are pairwise distinct. *)
Definition dict_wf (d : dict) : Prop := NoDup (dict_keys d).

End Dict.
Arguments dict V : clear implicits.

(** [sorted(keys)]: strings compare lexicographically. *)
Module StringOrder <: TotalLeBool.
Definition t := string.
Definition leb := String.leb.
Theorem leb_total : forall a1 a2, leb a1 a2 = true \/ leb a2 a1 = true.
  Proof. exact String.leb_total. Qed.
End StringOrder.

Module StringSort := Sort StringOrder.

Definition sorted (l : list string) : list string := StringSort.sort l.

(** ** The outside world of the storage class *)

(** What [students.data] holds: nothing, bytes that [open] or
    [pickle.load] reject with the exception text [e], or the pickle of a
    dictionary. *)
Inductive file_state :=
| NoFile
| Unreadable (e : string)
| Pickled (d : dict Student).

(** How the next write to the file goes: well, [open(..., "wb")] raises
    [e], or [pickle.dump] raises [e] after the file has been truncated,
    so that a later load of it raises [e']. *)
Inductive disk_state :=
| DiskOk
| OpenFails (e : string)
| DumpFails (e e' : string).

Record world := mkWorld {
  data_file : file_state;
  disk : disk_state;
  stdout : list string
}.

Definition print (line : string) (w : world) : world :=
  {| data_file := data_file w; disk := disk w; stdout := stdout w ++ [line] |}.

Definition write_file (f : file_state) (w : world) : world :=
  {| data_file := f; disk := disk w; stdout := stdout w |}.

(** ** [storage_interface.py], [student_storage.py] *)

Class IStudentStorage := {
  load_data : world -> result (dict Student) * world;
  save_data : dict Student -> world -> result unit * world
}.

Module StudentStorage.

Definition load_data (w : world) : result (dict Student) * world :=
    match data_file w with
    | Pickled students =>
        (Ok students,
         print "[StudentStorage] Data loaded successfully from students.data!" w)
    | Unreadable e =>
        (Ok [], print ("[StudentStorage] Data loading failed: " ++ e) w)
    | NoFile =>
        (Ok [],
         print "[StudentStorage] No historical data, returning empty dictionary." w)
    end.

Definition save_data (students : dict Student) (w : world)
    : result unit * world :=
    match disk w with
    | DiskOk =>
        (Ok tt,
         print "[StudentStorage] Data saved successfully to students.data!"
           (write_file (Pickled students) w))
    | OpenFails e =>
        (Ok tt, print ("[StudentStorage] Data saving failed: " ++ e) w)
    | DumpFails e e' =>
        (Ok tt,
         print ("[StudentStorage] Data saving failed: " ++ e)
           (write_file (Unreadable e') w))
    end.

#[export] Instance impl : IStudentStorage := {
    load_data := load_data;
    save_data := save_data
  }.

End StudentStorage.

(** ** The query agent: [llm_interface.IQueryAgent], [llm_query_agent.py] *)

(** The parameter mapping: a dictionary with at most the keys ['major'],
    ['gender'], ['age_min'], ['age_max'] and ['name_part']; [None] is an
    absent key. *)
Module Params.
Record t := mk {
    major : option string;
    gender : option string;
    age_min : option Z;
    age_max : option Z;
    name_part : option string
  }.

Definition empty : t := mk None None None None None.

  (** [not query_params] *)
Definition is_empty (p : t) : bool :=
    match p with
    | mk None None None None None => true
    | _ => false
    end.

Definition set_major (v : string) (p : t) : t :=
    mk (Some v) (gender p) (age_min p) (age_max p) (name_part p).
Definition set_gender (v : string) (p : t) : t :=
    mk (major p) (Some v) (age_min p) (age_max p) (name_part p).
Definition set_age_min (v : Z) (p : t) : t :=
    mk (major p) (gender p) (Some v) (age_max p) (name_part p).
Definition set_age_max (v : Z) (p : t) : t :=
    mk (major p) (gender p) (age_min p) (Some v) (name_part p).
End Params.

Class IQueryAgent := {
  parse_query : string -> result Params.t
}.

Module LLMQueryAgent.

  (** The keyword rules of [parse_query], up to the point where the
      mapping is complete. *)
Definition extract (text : string) : Params.t :=
    let query_params := Params.empty in
    let query_params :=
      if ("greater than 20" in_str text) || ("over 20" in_str text)
         || ("20+" in_str text) || ("大于20" in_str text)
         || ("20岁以上" in_str text)
      then Params.set_age_min 20 query_params else query_params in
    let query_params :=
      if ("less than 18" in_str text) || ("under 18" in_str text)
         || ("小于18" in_str text) || ("18岁以下" in_str text)
      then Params.set_age_max 18 query_params else query_params in
    let query_params :=
      if ("female" in_str text) || ("girl" in_str text)
         || ("女生" in_str text) || ("女性" in_str text)
      then Params.set_gender "Female" query_params
      else if ("male" in_str text) || ("boy" in_str text)
              || ("男生" in_str text) || ("男性" in_str text)
      then Params.set_gender "Male" query_params
      else query_params in
    let query_params :=
      if ("computer science" in_str text) || ("cs" in_str text)
         || ("software engineering" in_str text) || ("计算机" in_str text)
         || ("软件工程" in_str text)
      then Params.set_major "Computer Science" query_params
      else if ("finance" in_str text) || ("business" in_str text)
              || ("金融" in_str text)
      then Params.set_major "Finance" query_params
      else query_params in
    query_params.

  (** The exploratory phrasing tested when nothing was extracted. *)
Definition exploratory (text : string) : bool :=
    ("about" in_str text) || ("who is" in_str text)
    || ("关于" in_str text) || ("谁是" in_str text).

Definition parse_query (natural_language_text : string) : result Params.t :=
    let text := PyStr.lower natural_language_text in
    let query_params := extract text in
    if Params.is_empty query_params && exploratory text then
      Raise (StudentError
        "LLM failed to extract valid filtering parameters from the natural language input. Please try a more specific query.")
    else if Params.is_empty query_params then
      Raise (StudentError
        "LLM Parsing Failed: No valid filtering conditions were recognized.")
    else Ok query_params.

#[export] Instance impl : IQueryAgent := {
    parse_query := parse_query
  }.

End LLMQueryAgent.

(** ** [student_manager.py] *)

(** The fields of a manager that change: the store [self._students] and
    the world its storage reads and writes. *)
Record StudentManager := mkManager {
  _students : dict Student;
  env : world
}.

(** Methods run in a state-and-exception monad: a raised exception leaves
    the state as it was at the [raise]. *)
Definition M (A : Type) : Type := StudentManager -> result A * StudentManager.

Definition ret {A} (a : A) : M A := fun self => (Ok a, self).

Definition raise {A} (e : exn) : M A := fun self => (Raise e, self).

Definition bind {A B} (c : M A) (k : A -> M B) : M B :=
  fun self =>
    match c self with
    | (Ok a, self') => k a self'
    | (Raise e, self') => (Raise e, self')
    end.

Definition lift {A} (r : result A) : M A := fun self => (r, self).

Definition get_students : M (dict Student) := fun self => (Ok (_students self), self).

Definition put_students (d : dict Student) : M unit :=
  fun self => (Ok tt, {| _students := d; env := env self |}).

(** A call into the storage, which acts on the world. *)
Definition with_world {A} (f : world -> result A * world) : M A :=
  fun self =>
    let (r, w) := f (env self) in
    (r, {| _students := _students self; env := w |}).

Notation "x <- c1 ;; c2" := (bind c1 (fun x => c2))
  (at level 61, c1 at next level, right associativity).
Notation "c1 ;;; c2" := (bind c1 (fun _ => c2))
  (at level 61, right associativity).

(** An item of the [updates] dictionary of [modify_student]: one of the
    four keys of [temp_data] with a value of the field's type, or any
    other key (with any value). *)
Inductive update_item :=
| UpdName (value : string)
| UpdAge (value : Z)
| UpdGender (value : string)
| UpdMajor (value : string)
| UpdOther (key : string).

(** [temp_data] of [modify_student] *)
Record temp_data := mkTemp {
  t_name : string;
  t_age : Z;
  t_gender : string;
  t_major : string
}.

(** One round of [for key, value in updates.items()]. *)
Definition apply_update (t : temp_data) (u : update_item) : temp_data :=
  match u with
  | UpdName v => mkTemp v (t_age t) (t_gender t) (t_major t)
  | UpdAge v => mkTemp (t_name t) v (t_gender t) (t_major t)
  | UpdGender v => mkTemp (t_name t) (t_age t) v (t_major t)
  | UpdMajor v => mkTemp (t_name t) (t_age t) (t_gender t) v
  | UpdOther _ => t
  end.

(** [x in l] for a list of strings *)
Definition str_in_list (x : string) (l : list string) : bool :=
  existsb (String.eqb x) l.

(** [d[k]] *)
Definition dict_getitem {V} (k : string) (d : dict V) : result V :=
  match dict_get k d with
  | Some v => Ok v
  | None => Raise (PyException ("KeyError: " ++ k))
  end.

(** [[d[k] for k in keys]] *)
Fixpoint getitems {V} (d : dict V) (keys : list string) : result (list V) :=
  match keys with
  | [] => Ok []
  | k :: keys' =>
      match dict_getitem k d with
      | Raise e => Raise e
      | Ok v =>
          match getitems d keys' with
          | Raise e => Raise e
          | Ok vs => Ok (v :: vs)
          end
      end
  end.

Definition _validate_student_data {U : PyUnicode}
    (id name : string) (age : Z) (gender major : string) : result bool :=
  if negb (PyStr.truthy id && str_isalnum id) then
    Raise (StudentError "ID must be non-empty alphanumeric.")
  else if negb (PyStr.truthy name && (PyStr.len name >? 0)) then
    Raise (StudentError "Name cannot be empty.")
  else if negb ((1 <=? age) && (age <=? 150)) then
    Raise (StudentError "Age must be an integer between 1-150.")
  else if negb (str_in_list gender ["Male"; "Female"]) then
    Raise (StudentError "Gender must be 'Male' or 'Female'.")
  else if negb (PyStr.truthy major && (PyStr.len major >? 0)) then
    Raise (StudentError "Major cannot be empty.")
  else Ok true.

Section Manager.
Context {U : PyUnicode} {storage : IStudentStorage} {query_agent : IQueryAgent}.

  (** [StudentManager(storage, query_agent)] in the world [w] *)
Definition __init__ (w : world) : result StudentManager * world :=
    match load_data w with
    | (Ok students, w') => (Ok {| _students := students; env := w' |}, w')
    | (Raise e, w') => (Raise e, w')
    end.

Definition add_student (student : Student) : M unit :=
    students <- get_students ;;
    if dict_mem (sid student) students then
      raise (StudentAlreadyExistsError (sid student))
    else
      lift (_validate_student_data (sid student) (name student) (age student)
              (gender student) (major student)) ;;;
      students <- get_students ;;
      put_students (dict_set (sid student) student students).

Definition query_student_by_id (id : string) : M Student :=
    students <- get_students ;;
    match dict_get id students with
    | None => raise (StudentNotFoundError id)
    | Some student => ret student
    end.

Definition query_students_by_name (name_part : string) : M (list Student) :=
    students <- get_students ;;
    ret (filter (fun s => str_lower name_part in_str str_lower (name s))
           (dict_values students)).

Definition query_by_natural_language (natural_language_text : string)
    : M (list Student) :=
    query_params <- lift (parse_query natural_language_text) ;;
    students <- get_students ;;
    let results := dict_values students in
    let results :=
      match Params.major query_params with
      | Some v => filter (fun s => String.eqb (major s) v) results
      | None => results
      end in
    let results :=
      match Params.gender query_params with
      | Some v => filter (fun s => String.eqb (gender s) v) results
      | None => results
      end in
    let results :=
      match Params.age_min query_params with
      | Some v => filter (fun s => age s >=? v) results
      | None => results
      end in
    let results :=
      match Params.age_max query_params with
      | Some v => filter (fun s => age s <=? v) results
      | None => results
      end in
    let results :=
      match Params.name_part query_params with
      | Some v =>
          let name_part := str_lower v in
          filter (fun s => name_part in_str str_lower (name s)) results
      | None => results
      end in
    ret results.

Definition modify_student (id : string) (updates : list update_item) : M unit :=
    student <- query_student_by_id id ;;
    let temp := mkTemp (name student) (age student) (gender student)
                  (major student) in
    let temp := fold_left apply_update updates temp in
    lift (_validate_student_data (sid student) (t_name temp) (t_age temp)
            (t_gender temp) (t_major temp)) ;;;
    let student := mkStudent (sid student) (t_name temp) (t_age temp)
                     (t_gender temp) (t_major temp) in
    students <- get_students ;;
    put_students (dict_set id student students).

Definition delete_student (id : string) : M unit :=
    students <- get_students ;;
    if negb (dict_mem id students) then raise (StudentNotFoundError id)
    else put_students (dict_del id students).

Definition get_all_students : M (list Student) :=
    students <- get_students ;;
    lift (getitems students (sorted (dict_keys students))).

Definition save_and_exit : M unit :=
    students <- get_students ;;
    with_world (save_data students).

End Manager.

(** ** The validation rules, as the specification words them *)

Inductive rule := RuleId | RuleName | RuleAge | RuleGender | RuleMajor.

(** The place of a rule in the fixed order. *)
Definition rule_index (r : rule) : nat :=
  match r with
  | RuleId => 1
  | RuleName => 2
  | RuleAge => 3
  | RuleGender => 4
  | RuleMajor => 5
  end.

Definition rule_order : list rule :=
  [RuleId; RuleName; RuleAge; RuleGender; RuleMajor].

(** Whether a candidate record satisfies a rule. *)
Definition rule_holds {U : PyUnicode} (r : rule) (c : Student) : bool :=
  match r with
  | RuleId => negb (String.eqb (sid c) "") && str_isalnum (sid c)
  | RuleName => negb (String.eqb (name c) "")
  | RuleAge => (1 <=? age c) && (age c <=? 150)
  | RuleGender => String.eqb (gender c) "Male" || String.eqb (gender c) "Female"
  | RuleMajor => negb (String.eqb (major c) "")
  end.

(** The text with which the violation of a rule is reported. *)
Definition rule_message (r : rule) : string :=
  match r with
  | RuleId => "ID must be non-empty alphanumeric."
  | RuleName => "Name cannot be empty."
  | RuleAge => "Age must be an integer between 1-150."
  | RuleGender => "Gender must be 'Male' or 'Female'."
  | RuleMajor => "Major cannot be empty."
  end.

Definition first_violation {U : PyUnicode} (c : Student) : option rule :=
  find (fun r => negb (rule_holds r c)) rule_order.

(** The record [modify_student] validates and commits: the stored record
    with the updates applied. *)
Definition candidate (s : Student) (updates : list update_item) : Student :=
  let temp :=
    fold_left apply_update updates
      (mkTemp (name s) (age s) (gender s) (major s)) in
  mkStudent (sid s) (t_name temp) (t_age temp) (t_gender temp) (t_major temp).

Definition validate {U : PyUnicode} (c : Student) : result bool :=
  _validate_student_data (sid c) (name c) (age c) (gender c) (major c).

(** A candidate satisfies all five rules. *)
Definition satisfies_all_rules {U : PyUnicode} (c : Student) : bool :=
  forallb (fun r => rule_holds r c) rule_order.

(** ** Sample data *)

Definition S1 : Student := mkStudent "S1" "Alice" 25 "Female" "Finance".
Definition S2 : Student := mkStudent "S2" "Bob" 17 "Male" "Computer Science".

Definition sample_world : world := mkWorld NoFile DiskOk [].

Definition sample_manager : StudentManager :=
  {| _students := [("S1", S1); ("S2", S2)]; env := sample_world |}.

(** ** The store invariant *)

(** Every key of the store is the id of the record it maps to (and, the
    store being a dictionary, no key occurs twice). *)
Definition store_inv (d : dict Student) : Prop :=
  dict_wf d /\ forall k s, In (k, s) d -> sid s = k.

Fixpoint distinct (l : list string) : bool :=
  match l with
  | [] => true
  | x :: l' => negb (existsb (String.eqb x) l') && distinct l'
  end.

(** A check of [store_inv] that computes. *)
Definition store_invb (d : dict Student) : bool :=
  distinct (dict_keys d)
  && forallb (fun kv => String.eqb (sid (snd kv)) (fst kv)) d.

(** Ascending order of ids. *)
Definition id_lt (a b : Student) : Prop := String.ltb (sid a) (sid b) = true.

(** ** The life of a manager *)

(** What the data file may hold for the invariant to survive a load. *)
Definition file_inv (f : file_state) : Prop :=
  match f with
  | Pickled d => store_inv d
  | _ => True
  end.

Definition set_disk (d : disk_state) (self : StudentManager) : StudentManager :=
  {| _students := _students self;
     env := {| data_file := data_file (env self); disk := d;
               stdout := stdout (env self) |} |}.

(** One step of a system made of a manager, its [StudentStorage] and the
    data file: a call of a mutating method or of [save_and_exit], whatever
    it returns or raises; a change of mood of the disk; the start of a new
    process, whose manager loads the file the previous one left. *)
Inductive step {U : PyUnicode} : StudentManager -> StudentManager -> Prop :=
| step_add student self r self' :
    add_student student self = (r, self') -> step self self'
| step_modify id updates self r self' :
    modify_student id updates self = (r, self') -> step self self'
| step_delete id self r self' :
    delete_student id self = (r, self') -> step self self'
| step_save self r self' :
    save_and_exit (storage := StudentStorage.impl) self = (r, self') ->
    step self self'
| step_disk d self :
    step self (set_disk d self)
| step_restart self self' w' :
    __init__ (storage := StudentStorage.impl) (env self) = (Ok self', w') ->
    step self self'.

(** The states a system reaches when its first manager is built in a world
    where [students.data] does not exist or cannot be read. *)
Inductive reachable {U : PyUnicode} : StudentManager -> Prop :=
| reach_start w self w' :
    data_file w = NoFile \/ (exists e, data_file w = Unreadable e) ->
    __init__ (storage := StudentStorage.impl) w = (Ok self, w') ->
    reachable self
| reach_step self self' :
    reachable self -> step self self' -> reachable self'.

Definition system_inv (self : StudentManager) : Prop :=
  store_inv (_students self) /\ file_inv (data_file (env self)).

(** The manager of a first session in which S1 and S2 were added. *)
Definition session_manager : StudentManager :=
  {| _students := [("S1", S1); ("S2", S2)];
     env := print "[StudentStorage] No historical data, returning empty dictionary."
              sample_world |}.

(** ** The query filter, as the specification words it *)

(** Two characters are the same letter when case is ignored: they are
    equal, or one is an ASCII capital and the other its small letter. *)
Definition same_letter (a b : ascii) : bool :=
  Ascii.eqb a b
  || (PyStr.is_upper a && Ascii.eqb b (ascii_of_N (N_of_ascii a + 32)))
  || (PyStr.is_upper b && Ascii.eqb a (ascii_of_N (N_of_ascii b + 32))).

(** Two texts are equal when case is ignored. *)
Fixpoint ci_eq (s t : string) : bool :=
  match s, t with
  | EmptyString, EmptyString => true
  | String a s', String b t' => same_letter a b && ci_eq s' t'
  | _, _ => false
  end.

(** [part] occurs in [nm] when the case of letters is ignored: some
    stretch of [nm] equals [part] up to case. *)
Definition ci_substring (part nm : string) : Prop :=
  exists pre mid post,
    nm = (pre ++ mid ++ post)%string /\ ci_eq mid part = true.

(** The test of the code: the lower-cased [part] occurs in the lower-cased
    [nm]. *)
Definition lower_contains {U : PyUnicode} (part nm : string) : Prop :=
  (str_lower part in_str str_lower nm) = true.

(** The five filters, and the order in which the manager applies them. *)
Inductive stage := ByMajor | ByGender | ByAgeMin | ByAgeMax | ByNamePart.

Definition stage_order : list stage :=
  [ByMajor; ByGender; ByAgeMin; ByAgeMax; ByNamePart].

(** The key of a filter is absent from the mapping. *)
Definition key_absent (p : Params.t) (f : stage) : bool :=
  match f with
  | ByMajor => match Params.major p with None => true | _ => false end
  | ByGender => match Params.gender p with None => true | _ => false end
  | ByAgeMin => match Params.age_min p with None => true | _ => false end
  | ByAgeMax => match Params.age_max p with None => true | _ => false end
  | ByNamePart => match Params.name_part p with None => true | _ => false end
  end.

(** What a filter asks of a record: exact equality of major and gender,
    inclusive bounds on the age, the lower-cased name part inside the
    lower-cased name; nothing when its key is absent. *)
Definition stage_pred {U : PyUnicode} (p : Params.t) (f : stage) (s : Student)
  : Prop :=
  match f with
  | ByMajor => forall v, Params.major p = Some v -> major s = v
  | ByGender => forall v, Params.gender p = Some v -> gender s = v
  | ByAgeMin => forall v, Params.age_min p = Some v -> v <= age s
  | ByAgeMax => forall v, Params.age_max p = Some v -> age s <= v
  | ByNamePart => forall v, Params.name_part p = Some v -> lower_contains v (name s)
  end.

(** The conjunction of the predicates present in the mapping. *)
Definition satisfies {U : PyUnicode} (p : Params.t) (s : Student) : Prop :=
  forall f, stage_pred p f s.

(** The test a filter runs on a record. *)
Definition stage_keeps {U : PyUnicode} (p : Params.t) (f : stage) (s : Student)
  : bool :=
  match f with
  | ByMajor =>
      match Params.major p with
      | Some v => String.eqb (major s) v
      | None => true
      end
  | ByGender =>
      match Params.gender p with
      | Some v => String.eqb (gender s) v
      | None => true
      end
  | ByAgeMin =>
      match Params.age_min p with
      | Some v => age s >=? v
      | None => true
      end
  | ByAgeMax =>
      match Params.age_max p with
      | Some v => age s <=? v
      | None => true
      end
  | ByNamePart =>
      match Params.name_part p with
      | Some v => str_lower v in_str str_lower (name s)
      | None => true
      end
  end.

(** One filter narrowing a result list, and a run of filters in a given
    order, each on the result of the one before. *)
Definition apply_stage {U : PyUnicode} (p : Params.t) (f : stage)
    (results : list Student)
  : list Student :=
  filter (stage_keeps p f) results.

Definition run_stages {U : PyUnicode} (p : Params.t) (order : list stage)
    (results : list Student) : list Student :=
  fold_left (fun acc f => apply_stage p f acc) order results.

(** The reading of "returns the narrowed set together with the parameter
    mapping used": the mapping of a query can be read off what
    [query_by_natural_language] returned for it. *)
Definition returns_mapping_with_results {U : PyUnicode} (agent : IQueryAgent)
  : Prop :=
  exists mapping_of : list Student -> Params.t,
    forall self text results self',
      query_by_natural_language (query_agent := agent) text self
      = (Ok results, self') ->
      parse_query text = Ok (mapping_of results).

(** ** Further notions used by the properties of the code *)

(** The field an item of [updates] writes. *)
Definition sets_name (u : update_item) : bool :=
  match u with UpdName _ => true | _ => false end.
Definition sets_age (u : update_item) : bool :=
  match u with UpdAge _ => true | _ => false end.
Definition sets_gender (u : update_item) : bool :=
  match u with UpdGender _ => true | _ => false end.
Definition sets_major (u : update_item) : bool :=
  match u with UpdMajor _ => true | _ => false end.

(** Every record of the store passes the five validation rules. *)
Definition all_valid {U : PyUnicode} (d : dict Student) : Prop :=
  forall k s, In (k, s) d -> satisfies_all_rules s = true.

(** The dictionary a load of the data file yields. *)
Definition file_contents (f : file_state) : dict Student :=
  match f with
  | Pickled d => d
  | _ => []
  end.

(** The keyword tests of [parse_query], one per parameter value. *)
Definition age_min_cue (text : string) : bool :=
  ("greater than 20" in_str text) || ("over 20" in_str text)
  || ("20+" in_str text) || ("大于20" in_str text)
  || ("20岁以上" in_str text).

Definition age_max_cue (text : string) : bool :=
  ("less than 18" in_str text) || ("under 18" in_str text)
  || ("小于18" in_str text) || ("18岁以下" in_str text).

Definition female_cue (text : string) : bool :=
  ("female" in_str text) || ("girl" in_str text)
  || ("女生" in_str text) || ("女性" in_str text).

Definition male_cue (text : string) : bool :=
  ("male" in_str text) || ("boy" in_str text)
  || ("男生" in_str text) || ("男性" in_str text).

Definition cs_cue (text : string) : bool :=
  ("computer science" in_str text) || ("cs" in_str text)
  || ("software engineering" in_str text) || ("计算机" in_str text)
  || ("软件工程" in_str text).

Definition finance_cue (text : string) : bool :=
  ("finance" in_str text) || ("business" in_str text)
  || ("金融" in_str text).

(** ** [cli_interface.py]: the prompt for a record *)

Module Cli.

(** [c.isspace()] for an ASCII character: tab to carriage return, the four
    separators and the space. *)
Definition is_space (c : ascii) : bool :=
  let n := N_of_ascii c in
  (((9 <=? n) && (n <=? 13)) || ((28 <=? n) && (n <=? 32)))%N.

Fixpoint lstrip (s : string) : string :=
  match s with
  | EmptyString => EmptyString
  | String c s' => if is_space c then lstrip s' else s
  end.

Fixpoint rstrip (s : string) : string :=
  match s with
  | EmptyString => EmptyString
  | String c s' =>
      match rstrip s' with
      | EmptyString => if is_space c then EmptyString else String c EmptyString
      | r => String c r
      end
  end.

(** [s.strip()] *)
Definition strip (s : string) : string := rstrip (lstrip s).

(** [s.isdigit()], for ASCII digits. *)
Definition isdigit (s : string) : bool :=
  match s with
  | EmptyString => false
  | _ => PyStr.all_chars PyStr.is_digit s
  end.

Fixpoint int_of_digits (acc : Z) (s : string) : Z :=
  match s with
  | EmptyString => acc
  | String c s' => int_of_digits (10 * acc + (Z.of_N (N_of_ascii c) - 48)) s'
  end.

(** [int(s)] for a string of digits. *)
Definition int (s : string) : Z := int_of_digits 0 s.

(** [x or y] for strings. *)
Definition str_or (x y : string) : string := if PyStr.truthy x then x else y.

(** Reading the console: the state is the lines still to come on standard
    input; [input] raises [EOFError] when there is none.  The prompts
    written are not modelled. *)
Definition IO (A : Type) : Type := list string -> result A * list string.

Definition io_ret {A} (a : A) : IO A := fun stdin => (Ok a, stdin).

Definition io_bind {A B} (c : IO A) (k : A -> IO B) : IO B :=
  fun stdin =>
    match c stdin with
    | (Ok a, stdin') => k a stdin'
    | (Raise e, stdin') => (Raise e, stdin')
    end.

Definition input : IO string :=
  fun stdin =>
    match stdin with
    | [] => (Raise (PyException "EOFError: EOF when reading a line"), [])
    | line :: stdin' => (Ok line, stdin')
    end.

Notation "x <~ c1 ;; c2" := (io_bind c1 (fun x => c2))
  (at level 61, c1 at next level, right associativity).

(** [CLIInterface._prompt_for_student_data]; the dictionary [data] it
    returns has the five keys of a record. *)
Definition _prompt_for_student_data (current_student : option Student)
  : IO Student :=
  match current_student with
  | Some current_student =>
      l1 <~ input ;;
      let data_name := str_or (strip l1) (name current_student) in
      l2 <~ input ;;
      let age_str := strip l2 in
      let data_age :=
        if isdigit age_str then int age_str else age current_student in
      l3 <~ input ;;
      let data_gender := str_or (strip l3) (gender current_student) in
      l4 <~ input ;;
      let data_major := str_or (strip l4) (major current_student) in
      let data_sid := sid current_student in
      io_ret (mkStudent data_sid data_name data_age data_gender data_major)
  | None =>
      l1 <~ input ;;
      let data_sid := strip l1 in
      l2 <~ input ;;
      let data_name := strip l2 in
      l3 <~ input ;;
      let age_str := strip l3 in
      let data_age := if isdigit age_str then int age_str else 0 in
      l4 <~ input ;;
      let data_gender := strip l4 in
      l5 <~ input ;;
      let data_major := strip l5 in
      io_ret (mkStudent data_sid data_name data_age data_gender data_major)
  end.

(** A line of white space only (the empty line included). *)
Definition blank (s : string) : bool := PyStr.all_chars is_space s.

End Cli.

(** ** A model of the Unicode-dependent methods that computes *)

(** [PyModel.lower] and [PyModel.isalnum] are [str.lower()] and
    [str.isalnum()] on text made of ASCII characters and of the
    twenty-four capital and twenty-five small unaccented Greek letters;
    a byte that does not belong to such a character is kept by [lower]
    and refused by [isalnum].  The capital sigma follows Python's rule:
    it becomes the final small sigma when a cased letter stands before
    it, and none after it, characters that case ignores (apostrophe,
    full stop, colon, circumflex, grave accent) being skipped. *)
Module PyModel.

Definition is_letter (c : ascii) : bool := PyStr.is_upper c || PyStr.is_lower c.

Definition case_ignorable (c : ascii) : bool :=
  let n := N_of_ascii c in
  ((n =? 39) || (n =? 46) || (n =? 58) || (n =? 94) || (n =? 96))%N.

(** A Greek letter in UTF-8: a capital with the two bytes of its small
    form, the capital sigma, or a small letter. *)
Inductive greek :=
| Capital (lead trail : ascii)
| CapitalSigma
| Small.

Definition greek_letter (a b : ascii) : option greek :=
  let x := N_of_ascii a in
  let y := N_of_ascii b in
  if (x =? 206)%N then
    if ((145 <=? y) && (y <=? 159))%N then
      Some (Capital a (ascii_of_N (y + 32)))
    else if (((160 <=? y) && (y <=? 161)) || ((164 <=? y) && (y <=? 169)))%N then
      Some (Capital (ascii_of_N 207) (ascii_of_N (y - 32)))
    else if (y =? 163)%N then Some CapitalSigma
    else if ((177 <=? y) && (y <=? 191))%N then Some Small
    else None
  else if (x =? 207)%N then
    if ((128 <=? y) && (y <=? 137))%N then Some Small else None
  else None.

(** A cased letter follows, after characters that case ignores. *)
Fixpoint cased_after (s : string) : bool :=
  match s with
  | EmptyString => false
  | String a rest =>
      if PyStr.is_ascii_char a then
        if case_ignorable a then cased_after rest else is_letter a
      else
        match rest with
        | String b _ =>
            match greek_letter a b with
            | Some _ => true
            | None => false
            end
        | EmptyString => false
        end
  end.

(** [lower_from cased s] lower-cases [s], where [cased] tells whether a
    cased letter stands before [s], characters that case ignores being
    skipped. *)
Fixpoint lower_from (cased : bool) (s : string) : string :=
  match s with
  | EmptyString => EmptyString
  | String a rest =>
      if PyStr.is_ascii_char a then
        String (PyStr.lower_char a)
          (lower_from (if case_ignorable a then cased else is_letter a) rest)
      else
        match rest with
        | String b rest' =>
            match greek_letter a b with
            | Some (Capital a' b') =>
                String a' (String b' (lower_from true rest'))
            | Some CapitalSigma =>
                String (ascii_of_N 207)
                  (String (ascii_of_N
                             (if cased && negb (cased_after rest')
                              then 130 else 131))
                     (lower_from true rest'))
            | Some Small => String a (String b (lower_from true rest'))
            | None => String a (lower_from false rest)
            end
        | EmptyString => String a EmptyString
        end
  end.

Definition lower (s : string) : string := lower_from false s.

Fixpoint alnum_chars (s : string) : bool :=
  match s with
  | EmptyString => true
  | String a rest =>
      if PyStr.is_ascii_char a then PyStr.isalnum_char a && alnum_chars rest
      else
        match rest with
        | String b rest' =>
            match greek_letter a b with
            | Some _ => alnum_chars rest'
            | None => false
            end
        | EmptyString => false
        end
  end.

Definition isalnum (s : string) : bool :=
  match s with
  | EmptyString => false
  | _ => alnum_chars s
  end.

Lemma lower_from_ascii (s : string) (cased : bool) :
  PyStr.is_ascii s = true -> lower_from cased s = PyStr.lower s.
Proof.
  revert cased. induction s as [|a s IH]; intros cased; simpl; [reflexivity|].
  intros H. apply andb_true_iff in H as [Ha Hs]. rewrite Ha.
  now rewrite IH.
Qed.

Lemma lower_ascii (s : string) :
  PyStr.is_ascii s = true -> lower s = PyStr.lower s.
Proof. apply lower_from_ascii. Qed.

Lemma alnum_chars_ascii (s : string) :
  PyStr.is_ascii s = true ->
  alnum_chars s = PyStr.all_chars PyStr.isalnum_char s.
Proof.
  induction s as [|a s IH]; simpl; [reflexivity|].
  intros H. apply andb_true_iff in H as [Ha Hs]. rewrite Ha.
  now rewrite IH.
Qed.

Lemma isalnum_ascii (s : string) :
  PyStr.is_ascii s = true -> isalnum s = PyStr.isalnum s.
Proof.
  intros H. unfold isalnum, PyStr.isalnum. destruct s; [reflexivity|].
  now apply alnum_chars_ascii.
Qed.

End PyModel.

Definition py_model : PyUnicode := {|
  str_lower := PyModel.lower;
  str_isalnum := PyModel.isalnum;
  str_lower_ascii := PyModel.lower_ascii;
  str_isalnum_ascii := PyModel.isalnum_ascii
|}.

(** A record with a Greek name in capitals, and a store that holds it. *)
Definition odysseus : Student := mkStudent "S3" "ΟΔΥΣΣΕΥΣ" 30 "Male" "History".

Definition greek_manager : StudentManager :=
  {| _students := [("S3", odysseus)]; env := sample_world |}.

(** The 256 characters. *)
Definition all_ascii : list ascii := map ascii_of_nat (seq 0 256).

(** * Properties *)

(** The properties hold for every pair of functions that are Python's
    [str.lower()] and [str.isalnum()] on ASCII text. *)
Section Properties.
Context {U : PyUnicode}.

(** ** Strings *)

Section StringFacts.
Import PyStr.

Lemma prefix_app (sub s : string) :
    String.prefix sub s = true <-> exists post, s = (sub ++ post)%string.
  Proof.
    revert s. induction sub as [|a sub IH]; intros s; simpl.
    - destruct s; split; eauto.
    - destruct s as [|b s]; simpl.
      + split; [discriminate | intros [post H]; discriminate].
      + destruct (ascii_dec a b) as [->|Hab].
        * rewrite IH. split; intros [post H]; exists post.
          -- now rewrite H.
          -- now inversion H.
        * split; [discriminate | intros [post H]; inversion H; congruence].
  Qed.

Lemma contains_app (sub s : string) :
    contains sub s = true <->
    exists pre post, s = (pre ++ sub ++ post)%string.
  Proof.
    induction s as [|c s IH]; cbn [contains].
    - rewrite orb_false_r, prefix_app. split.
      + intros [post H]. now exists "", post.
      + intros [pre [post H]]. destruct pre; [now exists post | discriminate].
    - rewrite orb_true_iff, prefix_app, IH. split.
      + intros [[post H] | [pre [post H]]].
        * now exists "", post.
        * exists (String c pre), post. simpl. now rewrite H.
      + intros [pre [post H]]. destruct pre as [|c' pre]; simpl in H.
        * left. now exists post.
        * right. inversion H. now exists pre, post.
  Qed.

Lemma contains_empty (s : string) : contains "" s = true.
  Proof. apply contains_app. now exists "", s. Qed.

Lemma lower_app (s1 s2 : string) :
    lower (s1 ++ s2) = (lower s1 ++ lower s2)%string.
  Proof. induction s1 as [|c s1 IH]; simpl; [reflexivity | now rewrite IH]. Qed.

Lemma lower_split (a b s : string) :
    lower s = (a ++ b)%string ->
    exists s1 s2, s = (s1 ++ s2)%string /\ lower s1 = a /\ lower s2 = b.
  Proof.
    revert s. induction a as [|c a IH]; intros s H; simpl in H.
    - now exists "", s.
    - destruct s as [|c' s]; simpl in H; [discriminate |].
      inversion H as [[Hc Hs]]. destruct (IH _ Hs) as (s1 & s2 & -> & H1 & H2).
      exists (String c' s1), s2. simpl. now rewrite H1, H2.
  Qed.

Lemma lower_char_idem (c : ascii) : lower_char (lower_char c) = lower_char c.
  Proof.
    unfold lower_char. destruct (is_upper c) eqn:Hu; [|now rewrite Hu].
    unfold is_upper in *. apply andb_true_iff in Hu as [H1 H2].
    apply N.leb_le in H1, H2.
    rewrite N_ascii_embedding by lia.
    replace ((N_of_ascii c + 32 <=? 90)%N) with false
      by (symmetry; apply N.leb_gt; lia).
    now rewrite andb_false_r.
  Qed.

Lemma lower_idem (s : string) : lower (lower s) = lower s.
  Proof.
    induction s as [|c s IH]; simpl; [reflexivity|].
    now rewrite lower_char_idem, IH.
  Qed.

Lemma contains_lower (sub s : string) :
    contains sub s = true -> contains (lower sub) (lower s) = true.
  Proof.
    rewrite !contains_app. intros (pre & post & ->).
    exists (lower pre), (lower post). now rewrite !lower_app.
  Qed.

Lemma truthy_nonempty (s : string) : truthy s = negb (String.eqb s "").
  Proof. now destruct s. Qed.

Lemma len_pos (s : string) : (len s >? 0) = truthy s.
  Proof. destruct s; [reflexivity | unfold len; simpl; now destruct (String.length s)]. Qed.

Lemma all_chars_forallb (p : ascii -> bool) (s : string) :
    all_chars p s = forallb p (list_ascii_of_string s).
  Proof. induction s as [|c s IH]; simpl; [reflexivity | now rewrite IH]. Qed.

End StringFacts.

(** The order of strings is transitive and antisymmetric. *)
Section StringOrderFacts.

Lemma ascii_compare_refl (c : ascii) : Ascii.compare c c = Eq.
  Proof. unfold Ascii.compare. apply N.compare_refl. Qed.

Lemma ascii_compare_lt_trans (a b c : ascii) :
    Ascii.compare a b = Lt -> Ascii.compare b c = Lt -> Ascii.compare a c = Lt.
  Proof.
    unfold Ascii.compare. rewrite !N.compare_lt_iff. apply N.lt_trans.
  Qed.

Lemma string_compare_lt_trans (s1 s2 s3 : string) :
    String.compare s1 s2 = Lt -> String.compare s2 s3 = Lt ->
    String.compare s1 s3 = Lt.
  Proof.
    revert s2 s3. induction s1 as [|a s1 IH]; intros [|b s2] [|c s3];
      simpl; try discriminate; try reflexivity.
    destruct (Ascii.compare a b) eqn:Hab; try discriminate;
      destruct (Ascii.compare b c) eqn:Hbc; try discriminate; intros H1 H2.
    - apply Ascii.compare_eq_iff in Hab, Hbc. subst.
      rewrite ascii_compare_refl. eauto.
    - apply Ascii.compare_eq_iff in Hab. subst. now rewrite Hbc.
    - apply Ascii.compare_eq_iff in Hbc. subst. now rewrite Hab.
    - now rewrite (ascii_compare_lt_trans _ _ _ Hab Hbc).
  Qed.

Lemma string_compare_refl (s : string) : String.compare s s = Eq.
  Proof.
    induction s as [|c s IH]; simpl; [reflexivity|].
    now rewrite ascii_compare_refl.
  Qed.

Lemma string_leb_lt_or_eq (s1 s2 : string) :
    String.leb s1 s2 = true <-> String.compare s1 s2 = Lt \/ s1 = s2.
  Proof.
    unfold String.leb. destruct (String.compare s1 s2) eqn:H.
    - apply String.compare_eq_iff in H. tauto.
    - tauto.
    - split; [discriminate |]. intros [H1 | ->]; [discriminate |].
      now rewrite string_compare_refl in H.
  Qed.

Lemma string_leb_trans (s1 s2 s3 : string) :
    String.leb s1 s2 = true -> String.leb s2 s3 = true ->
    String.leb s1 s3 = true.
  Proof.
    rewrite !string_leb_lt_or_eq. intros [H1 | ->] [H2 | ->]; auto.
    left. eapply string_compare_lt_trans; eauto.
  Qed.

Lemma string_ltb_leb_neq (s1 s2 : string) :
    String.ltb s1 s2 = true <-> String.leb s1 s2 = true /\ s1 <> s2.
  Proof.
    rewrite string_leb_lt_or_eq. unfold String.ltb.
    destruct (String.compare s1 s2) eqn:H.
    - apply String.compare_eq_iff in H. split; [discriminate | tauto].
    - split; [|reflexivity]. intros _. split; [now left |].
      intros ->. now rewrite string_compare_refl in H.
    - split; [discriminate |]. intros [[H1 | H1] H2]; [discriminate | tauto].
  Qed.

End StringOrderFacts.

(** ** Dictionaries *)

Section DictFacts.
Context {V : Type}.
Implicit Types (d : dict V) (k : string) (v : V).

Lemma dict_get_set_eq k v d : dict_get k (dict_set k v d) = Some v.
  Proof.
    induction d as [|[k' v'] d IH]; simpl.
    - now rewrite String.eqb_refl.
    - destruct (String.eqb_spec k' k) as [->|Hne]; simpl.
      + now rewrite String.eqb_refl.
      + apply String.eqb_neq in Hne. now rewrite Hne.
  Qed.

Lemma dict_get_set_ne k k0 v d :
    k <> k0 -> dict_get k0 (dict_set k v d) = dict_get k0 d.
  Proof.
    intros Hne. induction d as [|[k' v'] d IH]; simpl.
    - apply String.eqb_neq in Hne. now rewrite Hne.
    - destruct (String.eqb_spec k' k) as [->|Hk]; simpl.
      + apply String.eqb_neq in Hne. now rewrite Hne.
      + now rewrite IH.
  Qed.

Lemma dict_get_In k v d : dict_get k d = Some v -> In (k, v) d.
  Proof.
    induction d as [|[k' v'] d IH]; simpl; [discriminate|].
    destruct (String.eqb_spec k' k) as [->|Hk].
    - intros [= ->]. now left.
    - auto.
  Qed.

Lemma dict_get_None k d : dict_get k d = None <-> ~ In k (dict_keys d).
  Proof.
    induction d as [|[k' v'] d IH]; simpl; [tauto|].
    destruct (String.eqb_spec k' k) as [->|Hk].
    - split; [discriminate | tauto].
    - rewrite IH. tauto.
  Qed.

Lemma dict_mem_In k d : dict_mem k d = true <-> In k (dict_keys d).
  Proof.
    unfold dict_mem. destruct (dict_get k d) eqn:H.
    - split; [|reflexivity]. intros _. apply dict_get_In in H.
      apply in_map_iff. now exists (k, v).
    - apply dict_get_None in H. split; [discriminate | tauto].
  Qed.

Lemma In_dict_get k v d : dict_wf d -> In (k, v) d -> dict_get k d = Some v.
  Proof.
    unfold dict_wf. induction d as [|[k' v'] d IH]; simpl; [tauto|].
    intros Hwf [[= -> ->] | Hin]; inversion Hwf; subst.
    - now rewrite String.eqb_refl.
    - destruct (String.eqb_spec k' k) as [->|Hk]; auto.
      exfalso. apply H1. apply in_map_iff. now exists (k, v).
  Qed.

Lemma dict_keys_set k v d :
    dict_keys (dict_set k v d)
    = if dict_mem k d then dict_keys d else (dict_keys d ++ [k])%list.
  Proof.
    induction d as [|[k' v'] d IH]; simpl; [reflexivity|].
    unfold dict_mem in *. simpl.
    destruct (String.eqb_spec k' k) as [->|Hk]; simpl; [reflexivity|].
    rewrite IH. now destruct (dict_get k d).
  Qed.

Lemma dict_set_In k v k0 v0 d :
    In (k0, v0) (dict_set k v d) -> (k0 = k /\ v0 = v) \/ In (k0, v0) d.
  Proof.
    induction d as [|[k' v'] d IH]; simpl.
    - intros [[= -> ->] | []]. now left.
    - destruct (String.eqb_spec k' k) as [->|Hk]; simpl.
      + intros [[= -> ->] | H]; auto.
      + intros [H | H]; auto. destruct (IH H); auto.
  Qed.

Lemma dict_del_In k k0 v0 d : In (k0, v0) (dict_del k d) -> In (k0, v0) d.
  Proof.
    induction d as [|[k' v'] d IH]; simpl; [tauto|].
    destruct (String.eqb_spec k' k) as [->|Hk]; simpl; intuition.
  Qed.

Lemma dict_set_wf k v d : dict_wf d -> dict_wf (dict_set k v d).
  Proof.
    unfold dict_wf. rewrite dict_keys_set. intros Hwf.
    destruct (dict_mem k d) eqn:Hm; [assumption|].
    apply NoDup_app; [assumption | repeat constructor; simpl; tauto |].
    intros x Hx [<- | []].
    apply dict_mem_In in Hx. congruence.
  Qed.

Lemma dict_del_wf k d : dict_wf d -> dict_wf (dict_del k d).
  Proof.
    unfold dict_wf. induction d as [|[k' v'] d IH]; simpl; [auto|].
    intros Hwf. inversion Hwf; subst.
    destruct (String.eqb_spec k' k) as [->|Hk]; simpl; [assumption|].
    constructor; auto. intros Hin. apply H1.
    apply in_map_iff in Hin as [[k0 v0] [Hfst Hin]]. simpl in Hfst. subst.
    apply dict_del_In in Hin. apply in_map_iff. now exists (k', v0).
  Qed.

End DictFacts.

(** ** Validation *)

Lemma str_in_list_gender (g : string) :
  str_in_list g ["Male"; "Female"]
  = String.eqb g "Male" || String.eqb g "Female".
Proof. unfold str_in_list. simpl. now rewrite orb_false_r. Qed.

Lemma id_check_rule (c : Student) :
  PyStr.truthy (sid c) && str_isalnum (sid c) = rule_holds RuleId c.
Proof. simpl. now rewrite truthy_nonempty. Qed.

(** On an ASCII id the first rule asks for at least one character, each a
    digit or a letter between A and Z or a and z. *)
Lemma rule_id_ascii (c : Student) :
  PyStr.is_ascii (sid c) = true ->
  rule_holds RuleId c
  = negb (String.eqb (sid c) "")
    && forallb PyStr.isalnum_char (list_ascii_of_string (sid c)).
Proof.
  intros H. simpl. rewrite str_isalnum_ascii by assumption.
  rewrite <- all_chars_forallb. now destruct (sid c).
Qed.

Lemma nonempty_check (s : string) :
  PyStr.truthy s && (PyStr.len s >? 0) = negb (String.eqb s "").
Proof. rewrite len_pos, andb_diag. apply truthy_nonempty. Qed.

(** [_validate_student_data] raises for the first rule, in the fixed
    order, that the candidate violates, and returns [True] when there is
    none. *)
Lemma validate_spec (c : Student) :
  validate c =
  match first_violation c with
  | Some r => Raise (StudentError (rule_message r))
  | None => Ok true
  end.
Proof.
  unfold validate, _validate_student_data, first_violation, rule_order.
  rewrite id_check_rule, !nonempty_check, str_in_list_gender.
  cbn [find].
  change (negb (String.eqb (name c) "")) with (rule_holds RuleName c).
  change ((1 <=? age c) && (age c <=? 150)) with (rule_holds RuleAge c).
  change (String.eqb (gender c) "Male" || String.eqb (gender c) "Female")
    with (rule_holds RuleGender c).
  change (negb (String.eqb (major c) "")) with (rule_holds RuleMajor c).
  destruct (rule_holds RuleId c); [|reflexivity].
  destruct (rule_holds RuleName c); [|reflexivity].
  destruct (rule_holds RuleAge c); [|reflexivity].
  destruct (rule_holds RuleGender c); [|reflexivity].
  destruct (rule_holds RuleMajor c); reflexivity.
Qed.

(** [first_violation] is the violated rule before which, in the fixed
    order, every rule holds. *)
Lemma first_violation_Some (c : Student) (r : rule) :
  first_violation c = Some r <->
  rule_holds r c = false /\
  forall r', (rule_index r' < rule_index r)%nat -> rule_holds r' c = true.
Proof.
  unfold first_violation, rule_order. cbn [find]. split.
  - destruct (rule_holds RuleId c) eqn:H1; cbn [negb].
    2:{ intros [= <-]. split; [assumption|]. intros []; simpl; lia. }
    destruct (rule_holds RuleName c) eqn:H2; cbn [negb].
    2:{ intros [= <-]. split; [assumption|]. intros []; simpl; auto; lia. }
    destruct (rule_holds RuleAge c) eqn:H3; cbn [negb].
    2:{ intros [= <-]. split; [assumption|]. intros []; simpl; auto; lia. }
    destruct (rule_holds RuleGender c) eqn:H4; cbn [negb].
    2:{ intros [= <-]. split; [assumption|]. intros []; simpl; auto; lia. }
    destruct (rule_holds RuleMajor c) eqn:H5; cbn [negb].
    2:{ intros [= <-]. split; [assumption|]. intros []; simpl; auto; lia. }
    discriminate.
  - intros [Hr Hbefore].
    assert (Hlt : forall r', (rule_index r' < rule_index r)%nat ->
                    negb (rule_holds r' c) = false)
      by (intros r' Hlt; now rewrite (Hbefore r' Hlt)).
    destruct r;
      try (rewrite (Hlt RuleId) by (simpl; lia));
      try (rewrite (Hlt RuleName) by (simpl; lia));
      try (rewrite (Hlt RuleAge) by (simpl; lia));
      try (rewrite (Hlt RuleGender) by (simpl; lia));
      now rewrite Hr.
Qed.

Lemma first_violation_None (c : Student) :
  first_violation c = None <-> forall r, rule_holds r c = true.
Proof.
  unfold first_violation. split.
  - intros H r. assert (Hin : In r rule_order) by (destruct r; simpl; tauto).
    pose proof (find_none _ _ H r Hin) as Hn. now apply negb_false_iff in Hn.
  - intros H. unfold rule_order. cbn [find]. now rewrite !H.
Qed.

Lemma rule_message_inj (r r' : rule) : rule_message r = rule_message r' -> r = r'.
Proof. destruct r, r'; simpl; intros H; try reflexivity; discriminate. Qed.

(** ** The manager's methods *)

Lemma add_student_eq (student : Student) (self : StudentManager) :
  add_student student self =
  if dict_mem (sid student) (_students self) then
    (Raise (StudentAlreadyExistsError (sid student)), self)
  else
    match validate student with
    | Raise e => (Raise e, self)
    | Ok _ =>
        (Ok tt, {| _students := dict_set (sid student) student (_students self);
                   env := env self |})
    end.
Proof.
  unfold add_student, bind, get_students, raise, lift, put_students, validate.
  destruct (dict_mem (sid student) (_students self)); [reflexivity|].
  now destruct (_validate_student_data _ _ _ _ _).
Qed.

Lemma query_student_by_id_eq (id : string) (self : StudentManager) :
  query_student_by_id id self =
  match dict_get id (_students self) with
  | None => (Raise (StudentNotFoundError id), self)
  | Some student => (Ok student, self)
  end.
Proof.
  unfold query_student_by_id, bind, get_students, raise, ret.
  now destruct (dict_get id (_students self)).
Qed.

Lemma modify_student_eq (id : string) (updates : list update_item)
    (self : StudentManager) :
  modify_student id updates self =
  match dict_get id (_students self) with
  | None => (Raise (StudentNotFoundError id), self)
  | Some student =>
      match validate (candidate student updates) with
      | Raise e => (Raise e, self)
      | Ok _ =>
          (Ok tt, {| _students := dict_set id (candidate student updates)
                                    (_students self);
                     env := env self |})
      end
  end.
Proof.
  unfold modify_student. unfold bind at 1. rewrite query_student_by_id_eq.
  destruct (dict_get id (_students self)) as [student|]; [|reflexivity].
  unfold bind, lift, get_students, put_students, validate, candidate. simpl.
  now destruct (_validate_student_data _ _ _ _ _).
Qed.

Lemma delete_student_eq (id : string) (self : StudentManager) :
  delete_student id self =
  if dict_mem id (_students self) then
    (Ok tt, {| _students := dict_del id (_students self); env := env self |})
  else (Raise (StudentNotFoundError id), self).
Proof.
  unfold delete_student, bind, get_students, raise, put_students.
  now destruct (dict_mem id (_students self)).
Qed.

Lemma satisfies_all_rules_spec (c : Student) :
  satisfies_all_rules c = true <-> first_violation c = None.
Proof.
  rewrite first_violation_None. unfold satisfies_all_rules.
  rewrite forallb_forall. split; [|auto].
  intros H r. apply H. destruct r; simpl; tauto.
Qed.

(** ** Adding records *)

(** C4: for every store and every record whose id is already a key of the
    store, [add_student] raises [StudentAlreadyExistsError] and leaves the
    manager's state, the store included, exactly as it was: no entry is
    added, removed or modified. *)
Theorem add_duplicate_already_exists (self : StudentManager) (student : Student) :
  dict_mem (sid student) (_students self) = true ->
  add_student student self
  = (Raise (StudentAlreadyExistsError (sid student)), self).
Proof. intros Hmem. rewrite add_student_eq. now rewrite Hmem. Qed.

(** C5: for every record R that satisfies all five validation rules and
    whose id is not in the store, [add_student R] returns normally and a
    following [query_student_by_id (sid R)] returns R itself, equal in
    every field. *)
Theorem add_then_query_by_id (self : StudentManager) (R : Student) :
  satisfies_all_rules R = true ->
  dict_mem (sid R) (_students self) = false ->
  exists self',
    add_student R self = (Ok tt, self')
    /\ query_student_by_id (sid R) self' = (Ok R, self').
Proof.
  intros Hvalid Hfresh.
  apply satisfies_all_rules_spec in Hvalid.
  eexists. split.
  - rewrite add_student_eq, Hfresh, validate_spec, Hvalid. reflexivity.
  - rewrite query_student_by_id_eq. simpl. now rewrite dict_get_set_eq.
Qed.

(** ** Validation failures *)

(** C2: for every candidate record, on the add path and on the update
    path with the merged fields, validation checks the rules in the fixed
    order id, name, age, gender, major: when [r] is violated and every
    rule before it holds, [_validate_student_data] raises the
    [StudentError] that reports [r] alone, [add_student] (for an id not
    in the store) and [modify_student] (for a stored record whose merge
    with the updates is the candidate) raise that same error, and both
    leave the manager's state, the store included, unchanged.  The five
    reports are pairwise different.  The id rule is that the id is not
    empty and alphanumeric as [str.isalnum()] has it; on an ASCII id that
    is: every character a digit or an unaccented letter. *)
Theorem validation_reports_first_violation (c : Student) (r : rule) :
  rule_holds r c = false ->
  (forall r', (rule_index r' < rule_index r)%nat -> rule_holds r' c = true) ->
  _validate_student_data (sid c) (name c) (age c) (gender c) (major c)
  = Raise (StudentError (rule_message r))
  /\ (forall r', rule_message r' = rule_message r -> r' = r)
  /\ (PyStr.is_ascii (sid c) = true ->
      rule_holds RuleId c
      = negb (String.eqb (sid c) "")
        && forallb PyStr.isalnum_char (list_ascii_of_string (sid c)))
  /\ (forall self,
        dict_mem (sid c) (_students self) = false ->
        add_student c self = (Raise (StudentError (rule_message r)), self))
  /\ (forall self id s updates,
        dict_get id (_students self) = Some s ->
        candidate s updates = c ->
        modify_student id updates self
        = (Raise (StudentError (rule_message r)), self)).
Proof.
  intros Hr Hbefore.
  assert (Hfirst : first_violation c = Some r)
    by (apply first_violation_Some; auto).
  assert (Hval : validate c = Raise (StudentError (rule_message r)))
    by (now rewrite validate_spec, Hfirst).
  split; [exact Hval|]. split; [intros r'; apply rule_message_inj|].
  split; [apply rule_id_ascii|]. split.
  - intros self Hfresh. now rewrite add_student_eq, Hfresh, Hval.
  - intros self id s updates Hget <-.
    now rewrite modify_student_eq, Hget, Hval.
Qed.

(** ** The store invariant *)

Lemma distinct_NoDup (l : list string) : distinct l = true -> NoDup l.
Proof.
  induction l as [|x l IH]; simpl; [constructor|].
  intros H. apply andb_true_iff in H as [Hx Hl]. constructor; auto.
  intros Hin. apply negb_true_iff in Hx.
  assert (existsb (String.eqb x) l = true)
    by (apply existsb_exists; exists x; split; [assumption | apply String.eqb_refl]).
  congruence.
Qed.

Lemma store_invb_ok (d : dict Student) : store_invb d = true -> store_inv d.
Proof.
  unfold store_invb, store_inv. intros H. apply andb_true_iff in H as [H1 H2].
  split; [now apply distinct_NoDup|].
  intros k s Hin. rewrite forallb_forall in H2.
  specialize (H2 _ Hin). now apply String.eqb_eq in H2.
Qed.

Lemma store_inv_ids_distinct (d : dict Student) :
  store_inv d -> NoDup (map sid (dict_values d)).
Proof.
  intros [Hwf Hid]. unfold dict_wf, dict_keys, dict_values in *.
  rewrite map_map. erewrite map_ext_in; [exact Hwf|].
  intros [k s] Hin. simpl. now apply Hid.
Qed.

(** ** Listing all records *)

Section Sorting.

Lemma leb_transitive : Transitive (fun x y => is_true (StringOrder.leb x y)).
  Proof. intros x y z. apply string_leb_trans. Qed.

Lemma sorted_StronglySorted (l : list string) :
    StronglySorted (fun x y => String.leb x y = true) (sorted l).
  Proof. apply StringSort.StronglySorted_sort, leb_transitive. Qed.

Lemma sorted_Permutation (l : list string) : Permutation (sorted l) l.
  Proof. symmetry. apply StringSort.Permuted_sort. Qed.

  (** A list has one ascending arrangement. *)
Lemma StronglySorted_unique (l1 l2 : list string) :
    StronglySorted (fun x y => String.leb x y = true) l1 ->
    StronglySorted (fun x y => String.leb x y = true) l2 ->
    Permutation l1 l2 -> l1 = l2.
  Proof.
    revert l2. induction l1 as [|a l1 IH]; intros l2 H1 H2 Hp.
    - now apply Permutation_nil in Hp.
    - destruct l2 as [|b l2].
      + symmetry in Hp. now apply Permutation_nil in Hp.
      + inversion H1 as [|? ? Hs1 Ha]; inversion H2 as [|? ? Hs2 Hb]; subst.
        assert (Hab : a = b).
        { assert (Hina : In a (b :: l2))
            by (eapply Permutation_in; [exact Hp | now left]).
          assert (Hinb : In b (a :: l1))
            by (eapply Permutation_in; [symmetry; exact Hp | now left]).
          destruct Hina as [->|Hina]; [reflexivity|].
          destruct Hinb as [->|Hinb]; [reflexivity|].
          rewrite Forall_forall in Ha, Hb.
          apply String.leb_antisym; auto. }
        subst b. f_equal. apply IH; auto.
        now apply Permutation_cons_inv in Hp.
  Qed.

Lemma sorted_of_Permutation (l1 l2 : list string) :
    Permutation l1 l2 -> sorted l1 = sorted l2.
  Proof.
    intros Hp. apply StronglySorted_unique; try apply sorted_StronglySorted.
    rewrite !sorted_Permutation. exact Hp.
  Qed.

Lemma StronglySorted_strict (l : list string) :
    NoDup l ->
    StronglySorted (fun x y => String.leb x y = true) l ->
    StronglySorted (fun x y => String.ltb x y = true) l.
  Proof.
    induction 2 as [|a l Hs IH Ha]; constructor.
    - apply IH. now inversion H.
    - inversion H; subst. rewrite Forall_forall in *. intros x Hx.
      apply string_ltb_leb_neq. split; [auto | congruence].
  Qed.

End Sorting.

Section GetItems.
Context {V : Type}.

Lemma getitems_Ok (d : dict V) (keys : list string) :
    (forall k, In k keys -> In k (dict_keys d)) ->
    exists vs, getitems d keys = Ok vs
               /\ map Some vs = map (fun k => dict_get k d) keys.
  Proof.
    induction keys as [|k keys IH]; intros Hin; simpl.
    - now exists [].
    - destruct IH as (vs & Hvs & Hmap); [intros; apply Hin; now right|].
      unfold dict_getitem. destruct (dict_get k d) as [v|] eqn:Hk.
      + rewrite Hvs. exists (v :: vs). simpl. now rewrite Hmap.
      + apply dict_get_None in Hk. exfalso. apply Hk, Hin. now left.
  Qed.

Lemma map_Some_inj (l1 l2 : list V) : map Some l1 = map Some l2 -> l1 = l2.
  Proof.
    revert l2. induction l1 as [|x l1 IH]; intros [|y l2]; simpl;
      try discriminate; [reflexivity|].
    intros [= -> H]. f_equal. auto.
  Qed.

Lemma dict_get_own_keys (d : dict V) :
    dict_wf d ->
    map (fun k => dict_get k d) (dict_keys d) = map Some (dict_values d).
  Proof.
    intros Hwf. unfold dict_keys, dict_values. rewrite !map_map.
    apply map_ext_in. intros [k v] Hin. simpl. now apply In_dict_get.
  Qed.

Lemma dict_get_Permutation (d1 d2 : dict V) (k : string) :
    dict_wf d1 -> Permutation d2 d1 -> dict_get k d2 = dict_get k d1.
  Proof.
    intros Hwf1 Hp.
    assert (Hwf2 : dict_wf d2).
    { unfold dict_wf, dict_keys in *.
      eapply Permutation_NoDup; [|exact Hwf1].
      apply Permutation_map. now symmetry. }
    destruct (dict_get k d1) as [v|] eqn:H1.
    - apply In_dict_get; [assumption|].
      eapply Permutation_in; [symmetry; exact Hp|]. now apply dict_get_In.
    - apply dict_get_None. apply dict_get_None in H1. intros Hin. apply H1.
      unfold dict_keys in *. eapply Permutation_in; [|exact Hin].
      now apply Permutation_map.
  Qed.

End GetItems.

Lemma get_all_students_eq (self : StudentManager) :
  get_all_students self
  = (getitems (_students self) (sorted (dict_keys (_students self))), self).
Proof. reflexivity. Qed.

(** The listing never raises, whatever the store holds. *)
Lemma get_all_students_total (self : StudentManager) :
  exists l,
    get_all_students self = (Ok l, self)
    /\ map Some l
       = map (fun k => dict_get k (_students self))
           (sorted (dict_keys (_students self))).
Proof.
  rewrite get_all_students_eq.
  destruct (getitems_Ok (_students self) (sorted (dict_keys (_students self))))
    as (l & Hl & Hmap).
  - intros k Hk. eapply Permutation_in; [apply sorted_Permutation | exact Hk].
  - exists l. now rewrite Hl.
Qed.

Lemma sorted_nil : sorted [] = [].
Proof. reflexivity. Qed.

(** Under the store invariant the ids of the listing are the sorted keys. *)
Lemma listing_ids (d : dict Student) (keys : list string) (l : list Student) :
  (forall k s, In (k, s) d -> sid s = k) ->
  map Some l = map (fun k => dict_get k d) keys ->
  map sid l = keys.
Proof.
  intros Hid. revert l. induction keys as [|k keys IH]; intros [|s l]; simpl;
    try discriminate; [reflexivity|].
  intros [= Hs Hl]. f_equal; [|now apply IH].
  symmetry in Hs. apply dict_get_In in Hs. now apply Hid.
Qed.

Lemma StronglySorted_map_sid (R : string -> string -> Prop) (l : list Student) :
  StronglySorted R (map sid l) ->
  StronglySorted (fun a b => R (sid a) (sid b)) l.
Proof.
  induction l as [|a l IH]; simpl; intros H; [constructor|].
  inversion H; subst. constructor; [auto|].
  rewrite Forall_forall in *. intros x Hx. apply H3. now apply in_map.
Qed.

(** C7: for every store state [get_all_students] returns normally, with
    the empty list when the store is empty; in a store that satisfies the
    store invariant the list holds exactly the records of the store, in
    strictly ascending order of id, and it is the same list for every
    order in which the same entries were inserted. *)
Theorem get_all_students_sorted_by_id (self : StudentManager) :
  (exists l,
     get_all_students self = (Ok l, self)
     /\ (_students self = [] -> l = []))
  /\ (store_inv (_students self) ->
      exists l,
        get_all_students self = (Ok l, self)
        /\ Permutation l (dict_values (_students self))
        /\ StronglySorted id_lt l
        /\ forall self2,
             Permutation (_students self2) (_students self) ->
             get_all_students self2 = (Ok l, self2)).
Proof.
  destruct (get_all_students_total self) as (l & Hl & Hmap). split.
  - exists l. split; [exact Hl|]. intros Hempty. rewrite Hempty in Hmap.
    simpl in Hmap. now destruct l.
  - intros [Hwf Hid]. exists l. split; [exact Hl|].
    assert (Hids : map sid l = sorted (dict_keys (_students self)))
      by (eapply listing_ids; eauto).
    split; [|split].
    + assert (Hp : Permutation (map Some l)
                     (map Some (dict_values (_students self)))).
      { rewrite Hmap, <- dict_get_own_keys by assumption.
        apply Permutation_map, sorted_Permutation. }
      apply Permutation_map_inv in Hp as (l3 & Heq & Hp).
      apply map_Some_inj in Heq. subst l3. now symmetry.
    + unfold id_lt. apply (StronglySorted_map_sid (fun x y => String.ltb x y = true)).
      rewrite Hids. apply StronglySorted_strict; [|apply sorted_StronglySorted].
      eapply Permutation_NoDup; [symmetry; apply sorted_Permutation | exact Hwf].
    + intros self2 Hp.
      destruct (get_all_students_total self2) as (l2 & Hl2 & Hmap2).
      rewrite Hl2. do 2 f_equal. apply map_Some_inj.
      rewrite Hmap, Hmap2.
      rewrite (sorted_of_Permutation (dict_keys (_students self2))
                 (dict_keys (_students self)))
        by (unfold dict_keys; now apply Permutation_map).
      apply map_ext. intros k. now apply dict_get_Permutation.
Qed.

(** ** The store invariant through the operations *)

Lemma store_inv_nil : store_inv [].
Proof. split; [constructor | intros k s []]. Qed.

Lemma store_inv_set (d : dict Student) (s : Student) :
  store_inv d -> store_inv (dict_set (sid s) s d).
Proof.
  intros [Hwf Hid]. split; [now apply dict_set_wf|].
  intros k0 s0 Hin. apply dict_set_In in Hin as [[-> ->] | Hin]; auto.
Qed.

Lemma store_inv_del (d : dict Student) (k : string) :
  store_inv d -> store_inv (dict_del k d).
Proof.
  intros [Hwf Hid]. split; [now apply dict_del_wf|].
  intros k0 s0 Hin. apply dict_del_In in Hin. auto.
Qed.

Lemma candidate_sid (s : Student) (updates : list update_item) :
  sid (candidate s updates) = sid s.
Proof. reflexivity. Qed.

Lemma add_student_inv (student : Student) (self : StudentManager) r self' :
  add_student student self = (r, self') ->
  store_inv (_students self) ->
  store_inv (_students self') /\ env self' = env self.
Proof.
  rewrite add_student_eq. intros H Hinv.
  destruct (dict_mem _ _); [injection H as <- <-; auto|].
  destruct (validate student); injection H as <- <-; auto.
  simpl. split; [now apply store_inv_set | reflexivity].
Qed.

Lemma modify_student_inv id updates (self : StudentManager) r self' :
  modify_student id updates self = (r, self') ->
  store_inv (_students self) ->
  store_inv (_students self') /\ env self' = env self.
Proof.
  rewrite modify_student_eq. intros H Hinv.
  destruct (dict_get id (_students self)) as [s|] eqn:Hget;
    [|injection H as <- <-; auto].
  destruct (validate _); injection H as <- <-; auto.
  simpl. split; [|reflexivity].
  assert (Hid : sid (candidate s updates) = id).
  { rewrite candidate_sid. destruct Hinv as [_ Hid]. apply Hid.
    now apply dict_get_In. }
  rewrite <- Hid at 1. now apply store_inv_set.
Qed.

Lemma delete_student_inv id (self : StudentManager) r self' :
  delete_student id self = (r, self') ->
  store_inv (_students self) ->
  store_inv (_students self') /\ env self' = env self.
Proof.
  rewrite delete_student_eq. intros H Hinv.
  destruct (dict_mem _ _); injection H as <- <-; auto.
  simpl. split; [now apply store_inv_del | reflexivity].
Qed.

(** An update leaves the id under every key as it was. *)
Lemma modify_student_keeps_ids id updates (self : StudentManager) r self' :
  modify_student id updates self = (r, self') ->
  forall k,
    option_map sid (dict_get k (_students self'))
    = option_map sid (dict_get k (_students self)).
Proof.
  rewrite modify_student_eq. intros H k.
  destruct (dict_get id (_students self)) as [s|] eqn:Hget;
    [|now injection H as <- <-].
  destruct (validate _); injection H as <- <-; [|reflexivity].
  simpl. destruct (String.eqb_spec id k) as [<-|Hne].
  - now rewrite dict_get_set_eq, Hget.
  - now rewrite dict_get_set_ne.
Qed.

Lemma save_and_exit_StudentStorage (self : StudentManager) :
  save_and_exit (storage := StudentStorage.impl) self
  = (Ok tt,
     {| _students := _students self;
        env := snd (StudentStorage.save_data (_students self) (env self)) |}).
Proof.
  unfold save_and_exit, bind, get_students, with_world. simpl.
  unfold StudentStorage.save_data. now destruct (disk (env self)).
Qed.

Lemma load_data_inv (w : world) :
  file_inv (data_file w) ->
  exists d w', StudentStorage.load_data w = (Ok d, w')
               /\ store_inv d /\ data_file w' = data_file w.
Proof.
  unfold StudentStorage.load_data. intros Hf.
  destruct (data_file w) as [|e|d] eqn:Hfile; do 2 eexists;
    (split; [reflexivity|]); simpl; rewrite ?Hfile; auto using store_inv_nil.
Qed.

Lemma init_inv (w : world) (self : StudentManager) (w' : world) :
  file_inv (data_file w) ->
  __init__ (storage := StudentStorage.impl) w = (Ok self, w') ->
  system_inv self.
Proof.
  intros Hf. unfold __init__. simpl.
  destruct (load_data_inv w Hf) as (d & w1 & Hload & Hd & Hfile).
  rewrite Hload. intros [= <- <-]. split; simpl; [assumption|].
  now rewrite Hfile.
Qed.

Lemma step_inv (self self' : StudentManager) :
  step self self' -> system_inv self -> system_inv self'.
Proof.
  intros Hstep [Hstore Hfile]. destruct Hstep as
    [student self r self' H | id updates self r self' H | id self r self' H
    | self r self' H | d self | self self' w' H].
  - destruct (add_student_inv _ _ _ _ H Hstore) as [Hs He].
    split; [assumption | now rewrite He].
  - destruct (modify_student_inv _ _ _ _ _ H Hstore) as [Hs He].
    split; [assumption | now rewrite He].
  - destruct (delete_student_inv _ _ _ _ H Hstore) as [Hs He].
    split; [assumption | now rewrite He].
  - rewrite save_and_exit_StudentStorage in H. injection H as _ <-.
    split; [assumption|]. simpl. unfold StudentStorage.save_data.
    destruct (disk (env self)); simpl; auto.
  - split; assumption.
  - eapply init_inv; eauto.
Qed.

Lemma reachable_inv (self : StudentManager) : reachable self -> system_inv self.
Proof.
  induction 1 as [w self w' Hfresh Hinit | self self' _ IH Hstep].
  - eapply init_inv; [|exact Hinit].
    destruct Hfresh as [-> | [e ->]]; exact I.
  - eapply step_inv; eauto.
Qed.

(** C6: in every state that a manager reaches, from the load at start-up
    on and through every [add_student], [modify_student],
    [delete_student], save and restart, each key of the store is the id of
    the record it maps to, the keys are pairwise distinct and so no two
    records share an id; and [modify_student], whatever it returns, leaves
    the id of the record under every key as it was. *)
Theorem store_invariant_holds (self : StudentManager) :
  reachable self ->
  store_inv (_students self)
  /\ NoDup (map sid (dict_values (_students self)))
  /\ (forall id updates r self',
        modify_student id updates self = (r, self') ->
        store_inv (_students self')
        /\ forall k,
             option_map sid (dict_get k (_students self'))
             = option_map sid (dict_get k (_students self))).
Proof.
  intros Hreach. destruct (reachable_inv self Hreach) as [Hstore _].
  split; [assumption|]. split; [now apply store_inv_ids_distinct|].
  intros id updates r self' H. split.
  - now destruct (modify_student_inv _ _ _ _ _ H Hstore).
  - now apply (modify_student_keeps_ids _ _ _ _ _ H).
Qed.

(** ** The query agent *)

Lemma parse_query_eq (text : string) :
  LLMQueryAgent.parse_query text =
  let query_params := LLMQueryAgent.extract (PyStr.lower text) in
  if Params.is_empty query_params then
    Raise (StudentError
      (if LLMQueryAgent.exploratory (PyStr.lower text) then
         "LLM failed to extract valid filtering parameters from the natural language input. Please try a more specific query."
       else "LLM Parsing Failed: No valid filtering conditions were recognized."))
  else Ok query_params.
Proof.
  unfold LLMQueryAgent.parse_query. cbv zeta.
  destruct (Params.is_empty _); [|reflexivity].
  now destruct (LLMQueryAgent.exploratory _).
Qed.

(** A text that contains one of the English exploratory phrases, in any
    case, is exploratory once lower-cased. *)
Lemma exploratory_lower (text : string) :
  ("about" in_str text) || ("who is" in_str text) = true ->
  LLMQueryAgent.exploratory (PyStr.lower text) = true.
Proof.
  intros H. unfold LLMQueryAgent.exploratory.
  apply orb_true_iff in H as [H | H]; apply contains_lower in H.
  - change (PyStr.lower "about") with "about" in H. now rewrite H.
  - change (PyStr.lower "who is") with "who is" in H.
    rewrite H. now rewrite orb_true_r.
Qed.

(** C8: [parse_query] raises a [StudentError], the failure of the query
    parse, on the text "who is tall"; and on every text from which no
    filter parameter is extracted it raises a [StudentError], the one
    about failing to extract parameters when the text contains the
    exploratory phrasing "about" or "who is" (or has it once
    lower-cased). *)
Theorem parse_query_fails_without_parameters (text : string) :
  Params.is_empty (LLMQueryAgent.extract (PyStr.lower text)) = true ->
  LLMQueryAgent.parse_query "who is tall"
  = Raise (StudentError
      "LLM failed to extract valid filtering parameters from the natural language input. Please try a more specific query.")
  /\ (exists msg, LLMQueryAgent.parse_query text = Raise (StudentError msg))
  /\ (("about" in_str text) || ("who is" in_str text)
      || LLMQueryAgent.exploratory (PyStr.lower text) = true ->
      LLMQueryAgent.parse_query text
      = Raise (StudentError
          "LLM failed to extract valid filtering parameters from the natural language input. Please try a more specific query.")).
Proof.
  intros Hempty. split; [reflexivity|].
  rewrite parse_query_eq. cbv zeta. rewrite Hempty. split; [eauto|].
  intros H. apply orb_true_iff in H as [H | H].
  - now rewrite (exploratory_lower _ H).
  - now rewrite H.
Qed.

(** ** Searching by name *)

Lemma all_ascii_complete (a : ascii) : In a all_ascii.
Proof.
  unfold all_ascii. apply in_map_iff. exists (nat_of_ascii a).
  split; [apply ascii_nat_embedding|].
  apply in_seq. pose proof (nat_ascii_bounded a). lia.
Qed.

(** Two characters have the same ASCII lowering exactly when they are the
    same letter up to case. *)
Lemma lower_char_same_letter (a b : ascii) :
  Ascii.eqb (PyStr.lower_char a) (PyStr.lower_char b) = same_letter a b.
Proof.
  assert (H : forallb (fun a =>
                forallb (fun b =>
                  Bool.eqb (Ascii.eqb (PyStr.lower_char a) (PyStr.lower_char b))
                    (same_letter a b)) all_ascii) all_ascii = true)
    by (vm_compute; reflexivity).
  rewrite forallb_forall in H. specialize (H a (all_ascii_complete a)).
  rewrite forallb_forall in H. specialize (H b (all_ascii_complete b)).
  now apply eqb_prop in H.
Qed.

Lemma lower_eq_ci_eq (s t : string) :
  PyStr.lower s = PyStr.lower t <-> ci_eq s t = true.
Proof.
  revert t. induction s as [|a s IH]; intros [|b t]; simpl;
    try (split; congruence).
  rewrite andb_true_iff, <- IH, <- lower_char_same_letter, Ascii.eqb_eq.
  split; [intros [= H1 H2]; auto | intros [-> ->]; reflexivity].
Qed.

(** The test on the ASCII lowerings is case-insensitive containment. *)
Lemma ci_substring_iff (part nm : string) :
  (PyStr.lower part in_str PyStr.lower nm) = true <-> ci_substring part nm.
Proof.
  rewrite contains_app. unfold ci_substring. split.
  - intros (a & b & H).
    apply lower_split in H as (pre & rest & -> & <- & H).
    apply lower_split in H as (mid & post & -> & Hmid & <-).
    exists pre, mid, post. split; [reflexivity | now apply lower_eq_ci_eq].
  - intros (pre & mid & post & -> & Hmid). apply lower_eq_ci_eq in Hmid.
    exists (PyStr.lower pre), (PyStr.lower post).
    now rewrite !lower_app, Hmid.
Qed.

(** On ASCII text the test of the code is case-insensitive containment. *)
Lemma lower_contains_ascii (part nm : string) :
  PyStr.is_ascii part = true -> PyStr.is_ascii nm = true ->
  (lower_contains part nm <-> ci_substring part nm).
Proof.
  intros Hp Hn. unfold lower_contains.
  rewrite !str_lower_ascii by assumption. apply ci_substring_iff.
Qed.

Lemma str_lower_empty : str_lower "" = "".
Proof. now rewrite str_lower_ascii. Qed.

Lemma filter_all {A} (f : A -> bool) (l : list A) :
  (forall x, In x l -> f x = true) -> filter f l = l.
Proof.
  induction l as [|x l IH]; simpl; intros H; [reflexivity|].
  rewrite (H x) by now left. f_equal. apply IH. intros; apply H; now right.
Qed.

(** C9, as the code has it: for every store and every string
    [name_part], [query_students_by_name] returns normally, leaves the
    manager as it is, and the list it returns is a selection, in store
    order, of the records of the store that holds exactly those for which
    the lower-cased [name_part] occurs in the lower-cased name; when
    [name_part] and the name are ASCII text these are exactly the records
    whose name contains [name_part] as a case-insensitive substring; for
    the empty string it is the list of all records of the store. *)
Theorem query_students_by_name_spec (self : StudentManager) (name_part : string) :
  (exists l keep,
     query_students_by_name name_part self = (Ok l, self)
     /\ l = filter keep (dict_values (_students self))
     /\ (forall s,
           In s l <->
           In s (dict_values (_students self))
           /\ lower_contains name_part (name s))
     /\ (forall s,
           PyStr.is_ascii name_part = true ->
           PyStr.is_ascii (name s) = true ->
           (In s l <->
            In s (dict_values (_students self))
            /\ ci_substring name_part (name s))))
  /\ query_students_by_name "" self = (Ok (dict_values (_students self)), self).
Proof.
  unfold query_students_by_name, bind, get_students, ret. split.
  - eexists. eexists. split; [reflexivity|]. split; [reflexivity|]. split.
    + intros s. now rewrite filter_In.
    + intros s Hp Hn. rewrite filter_In.
      now rewrite <- (lower_contains_ascii name_part (name s) Hp Hn).
  - rewrite filter_all; [reflexivity|].
    intros s _. rewrite str_lower_empty. apply contains_empty.
Qed.

(** ** The natural-language query filter *)

Lemma stage_keeps_pred (p : Params.t) (f : stage) (s : Student) :
  stage_keeps p f s = true <-> stage_pred p f s.
Proof.
  assert (Hopt : forall (A : Type) (o : option A) (b : A -> bool) (P : A -> Prop),
            (forall v, b v = true <-> P v) ->
            match o with Some v => b v | None => true end = true
            <-> forall v, o = Some v -> P v).
  { intros A [v|] b P Hb; split.
    - intros H v' [= <-]. now apply Hb.
    - intros H. apply Hb. now apply H.
    - intros _ v' [=].
    - reflexivity. }
  destruct f; simpl; apply Hopt; intros v.
  - apply String.eqb_eq.
  - apply String.eqb_eq.
  - apply Z.geb_le.
  - apply Z.leb_le.
  - reflexivity.
Qed.

Lemma apply_stage_absent (p : Params.t) (f : stage) (results : list Student) :
  key_absent p f = true -> apply_stage p f results = results.
Proof.
  intros H. apply filter_all. intros s _.
  destruct p as [mj gd amin amax np].
  destruct f; simpl in *;
    [destruct mj | destruct gd | destruct amin | destruct amax | destruct np];
    congruence.
Qed.

Lemma apply_stage_narrows (p : Params.t) (f : stage) (results : list Student) :
  incl (apply_stage p f results) results.
Proof. intros s Hs. now apply filter_In in Hs. Qed.

Lemma filter_filter {A} (f g : A -> bool) (l : list A) :
  filter g (filter f l) = filter (fun x => f x && g x) l.
Proof.
  induction l as [|x l IH]; simpl; [reflexivity|].
  destruct (f x); simpl; [destruct (g x)|]; now rewrite IH.
Qed.

Lemma run_stages_filter (p : Params.t) (order : list stage) (l : list Student) :
  run_stages p order l
  = filter (fun s => forallb (fun f => stage_keeps p f s) order) l.
Proof.
  unfold run_stages. revert l. induction order as [|f order IH]; intros l; simpl.
  - symmetry. now apply filter_all.
  - rewrite IH. apply filter_filter.
Qed.

Lemma run_stages_In (p : Params.t) (order : list stage) (l : list Student) s :
  In s (run_stages p order l)
  <-> In s l /\ forall f, In f order -> stage_pred p f s.
Proof.
  rewrite run_stages_filter, filter_In, forallb_forall.
  split; intros [Hin H]; (split; [assumption|]); intros f Hf;
    apply stage_keeps_pred; auto.
Qed.

Lemma run_stages_Permutation (p : Params.t) (o1 o2 : list stage)
    (l : list Student) :
  Permutation o1 o2 -> run_stages p o1 l = run_stages p o2 l.
Proof.
  intros Hp. rewrite !run_stages_filter. apply filter_ext. intros s.
  apply eq_true_iff_eq. rewrite !forallb_forall.
  split; intros H f Hf; apply H;
    [eapply Permutation_in; [symmetry|] | eapply Permutation_in]; eauto.
Qed.

Lemma stage_order_complete (f : stage) : In f stage_order.
Proof. destruct f; simpl; tauto. Qed.

Section QueryFacts.
Context {query_agent : IQueryAgent}.

  (** The five conditional filters of [query_by_natural_language] are the
      run of the five stages in the order major, gender, age_min,
      age_max, name_part. *)
Lemma query_by_natural_language_eq (text : string) (self : StudentManager) :
    query_by_natural_language text self =
    match parse_query text with
    | Raise e => (Raise e, self)
    | Ok p =>
        (Ok (apply_stage p ByNamePart
               (apply_stage p ByAgeMax
                  (apply_stage p ByAgeMin
                     (apply_stage p ByGender
                        (apply_stage p ByMajor (dict_values (_students self))))))),
         self)
    end.
  Proof.
    unfold query_by_natural_language, bind, lift, get_students, ret.
    destruct (parse_query text) as [p|e]; [|reflexivity].
    do 2 f_equal.
    assert (Hskip : forall f l, key_absent p f = true -> l = apply_stage p f l)
      by (intros; symmetry; now apply apply_stage_absent).
    destruct p as [mj gd amin amax np]. cbv zeta. simpl.
    destruct np as [v5|]; [|rewrite <- (Hskip ByNamePart) by reflexivity];
    (destruct amax as [v4|]; [|rewrite <- (Hskip ByAgeMax) by reflexivity]);
    (destruct amin as [v3|]; [|rewrite <- (Hskip ByAgeMin) by reflexivity]);
    (destruct gd as [v2|]; [|rewrite <- (Hskip ByGender) by reflexivity]);
    (destruct mj as [v1|]; [|rewrite <- (Hskip ByMajor) by reflexivity]);
    reflexivity.
  Qed.

End QueryFacts.

(** C10: for every store and every parameter mapping the query agent
    produces, the list [query_by_natural_language] returns holds exactly
    the records of the store that satisfy the conjunction of the
    predicates present in the mapping; and running the five filters in any
    order whatever gives that same list.  The predicates are those of the
    keys: equality with the major, equality with the gender, age at least
    age_min, age at most age_max, and the lower-cased name part inside the
    lower-cased name, which on ASCII text is containment of the name part
    as a case-insensitive substring. *)
Theorem query_filter_is_conjunction (query_agent : IQueryAgent)
    (self : StudentManager) (text : string) (p : Params.t) :
  parse_query text = Ok p ->
  exists l,
    query_by_natural_language text self = (Ok l, self)
    /\ (forall s, In s l <-> In s (dict_values (_students self)) /\ satisfies p s)
    /\ (forall order,
          Permutation order stage_order ->
          run_stages p order (dict_values (_students self)) = l)
    /\ (forall v s,
          Params.name_part p = Some v ->
          PyStr.is_ascii v = true -> PyStr.is_ascii (name s) = true ->
          (stage_pred p ByNamePart s <-> ci_substring v (name s))).
Proof.
  intros Hparse. rewrite query_by_natural_language_eq, Hparse.
  eexists. split; [reflexivity|].
  change (apply_stage p ByNamePart _)
    with (run_stages p stage_order (dict_values (_students self))).
  split.
  - intros s. rewrite run_stages_In. unfold satisfies.
    split; intros [Hin H]; (split; [assumption|]); intros f.
    + apply H, stage_order_complete.
    + intros _. apply H.
  - split; [intros order Hp; now apply run_stages_Permutation|].
    intros v s Hv Hav Has. rewrite <- (lower_contains_ascii v (name s) Hav Has).
    simpl. split; [intros H; now apply H | intros H v' Hv'; congruence].
Qed.

(** C1, as the code has it: for every store and every parameter mapping
    the query agent produces, [query_by_natural_language] applies the
    filters in the fixed order major, gender, age_min, age_max,
    name_part, each on the result of the one before: exact equality for
    major and gender, inclusive bounds for the ages, the lower-cased name
    part inside the lower-cased name, which on ASCII text is containment
    as a case-insensitive substring; a filter whose key is absent from the
    mapping keeps its input whole, and no filter adds a record.  It
    returns the narrowed list, possibly empty, and nothing else, and
    leaves the manager as it is.  For the store of S1 (25, Female,
    Finance) and S2 (17, Male, Computer Science), whatever their names,
    and the mapping with gender Female and age_min 20, the list is
    exactly S1. *)
Theorem query_by_natural_language_filters (query_agent : IQueryAgent)
    (self : StudentManager) (text : string) (p : Params.t) :
  parse_query text = Ok p ->
  query_by_natural_language text self
  = (Ok (apply_stage p ByNamePart
           (apply_stage p ByAgeMax
              (apply_stage p ByAgeMin
                 (apply_stage p ByGender
                    (apply_stage p ByMajor (dict_values (_students self))))))),
     self)
  /\ (forall f s results,
        In s (apply_stage p f results) <-> In s results /\ stage_pred p f s)
  /\ (forall v nm,
        PyStr.is_ascii v = true -> PyStr.is_ascii nm = true ->
        (lower_contains v nm <-> ci_substring v nm))
  /\ (forall f results, key_absent p f = true -> apply_stage p f results = results)
  /\ (forall f results, incl (apply_stage p f results) results)
  /\ (p = Params.mk None (Some "Female") (Some 20) None None ->
      forall n1 n2 w,
        query_by_natural_language text
          {| _students :=
               [("S1", mkStudent "S1" n1 25 "Female" "Finance");
                ("S2", mkStudent "S2" n2 17 "Male" "Computer Science")];
             env := w |}
        = (Ok [mkStudent "S1" n1 25 "Female" "Finance"],
           {| _students :=
                [("S1", mkStudent "S1" n1 25 "Female" "Finance");
                 ("S2", mkStudent "S2" n2 17 "Male" "Computer Science")];
              env := w |})).
Proof.
  intros Hparse. split; [|split; [|split; [|split; [|split]]]].
  - now rewrite query_by_natural_language_eq, Hparse.
  - intros f s results. unfold apply_stage.
    now rewrite filter_In, stage_keeps_pred.
  - apply lower_contains_ascii.
  - intros f results. apply apply_stage_absent.
  - intros f results. apply apply_stage_narrows.
  - intros -> n1 n2 w. now rewrite query_by_natural_language_eq, Hparse.
Qed.

(** ** Saving *)

(** C3, as the code has it: [save_and_exit] hands the whole store to the
    storage and returns or raises what the storage does, with the store
    in memory untouched either way; the [StudentStorage] of the
    repository never raises: when the write fails it prints "Data saving
    failed" with the cause and returns normally, so that the caller
    learns of no failure. *)
Theorem save_and_exit_delegates (storage : IStudentStorage)
    (self : StudentManager) :
  save_and_exit self
  = (fst (save_data (_students self) (env self)),
     {| _students := _students self;
        env := snd (save_data (_students self) (env self)) |})
  /\ exists w',
       save_and_exit (storage := StudentStorage.impl) self
       = (Ok tt, {| _students := _students self; env := w' |})
       /\ data_file w'
          = match disk (env self) with
            | DiskOk => Pickled (_students self)
            | OpenFails _ => data_file (env self)
            | DumpFails _ e' => Unreadable e'
            end
       /\ stdout w'
          = (stdout (env self)
             ++ [match disk (env self) with
                 | DiskOk =>
                     "[StudentStorage] Data saved successfully to students.data!"
                 | OpenFails e | DumpFails e _ =>
                     ("[StudentStorage] Data saving failed: " ++ e)%string
                 end])%list.
Proof.
  split.
  - unfold save_and_exit, bind, get_students, with_world. simpl.
    now destruct (save_data (_students self) (env self)).
  - rewrite save_and_exit_StudentStorage. eexists. split; [reflexivity|].
    unfold StudentStorage.save_data. now destruct (disk (env self)).
Qed.

(** * Further properties of the code *)

(** ** More on dictionaries *)

Section DictMore.
Context {V : Type}.
Implicit Types (d : dict V) (k : string) (v : V).

Lemma dict_get_del_ne k k0 d :
    k <> k0 -> dict_get k0 (dict_del k d) = dict_get k0 d.
  Proof.
    intros Hne. induction d as [|[k' v'] d IH]; simpl; [reflexivity|].
    destruct (String.eqb_spec k' k) as [->|Hk]; simpl.
    - apply String.eqb_neq in Hne. now rewrite Hne.
    - now rewrite IH.
  Qed.

Lemma dict_get_del_eq k d : dict_wf d -> dict_get k (dict_del k d) = None.
  Proof.
    unfold dict_wf. induction d as [|[k' v'] d IH]; simpl; [reflexivity|].
    intros Hwf. inversion Hwf; subst.
    destruct (String.eqb_spec k' k) as [->|Hk]; simpl.
    - now apply dict_get_None.
    - apply String.eqb_neq in Hk. rewrite Hk. auto.
  Qed.

Lemma dict_del_set_fresh k v d :
    dict_get k d = None -> dict_del k (dict_set k v d) = d.
  Proof.
    induction d as [|[k' v'] d IH]; simpl.
    - now rewrite String.eqb_refl.
    - destruct (String.eqb_spec k' k) as [->|Hk]; [discriminate|].
      intros H. simpl. apply String.eqb_neq in Hk. rewrite Hk. now rewrite IH.
  Qed.

Lemma dict_set_same k v d : dict_get k d = Some v -> dict_set k v d = d.
  Proof.
    induction d as [|[k' v'] d IH]; simpl; [discriminate|].
    destruct (String.eqb_spec k' k) as [->|Hk].
    - now intros [= ->].
    - intros H. now rewrite IH.
  Qed.

Lemma dict_mem_false k d : dict_mem k d = false <-> dict_get k d = None.
  Proof. unfold dict_mem. destruct (dict_get k d); split; congruence. Qed.

Lemma dict_mem_true k d : dict_mem k d = true <-> exists v, dict_get k d = Some v.
  Proof.
    unfold dict_mem. destruct (dict_get k d) as [v|]; split; try congruence; eauto.
    intros [v [=]].
  Qed.

End DictMore.

(** ** Unknown ids *)

(** X1: for an id that is not a key of the store, [query_student_by_id],
    [modify_student] (whatever the updates) and [delete_student] each
    raise [StudentNotFoundError] with that id and leave the manager
    unchanged. *)
Theorem unknown_id_not_found (self : StudentManager) (id : string)
    (updates : list update_item) :
  dict_mem id (_students self) = false ->
  query_student_by_id id self = (Raise (StudentNotFoundError id), self)
  /\ modify_student id updates self = (Raise (StudentNotFoundError id), self)
  /\ delete_student id self = (Raise (StudentNotFoundError id), self).
Proof.
  intros Hmem. pose proof Hmem as Hget. apply dict_mem_false in Hget.
  rewrite query_student_by_id_eq, modify_student_eq, delete_student_eq.
  now rewrite Hget, Hmem.
Qed.

(** ** Deleting *)

(** X2: in a store with distinct keys, deleting an id that is present
    returns normally, leaves the world alone, makes a later lookup of
    that id raise [StudentNotFoundError], and changes the lookup of no
    other id. *)
Theorem delete_removes_only_that_record (self : StudentManager) (id : string) :
  dict_wf (_students self) ->
  dict_mem id (_students self) = true ->
  exists self',
    delete_student id self = (Ok tt, self')
    /\ env self' = env self
    /\ query_student_by_id id self' = (Raise (StudentNotFoundError id), self')
    /\ forall k, k <> id ->
         dict_get k (_students self') = dict_get k (_students self).
Proof.
  intros Hwf Hmem. rewrite delete_student_eq, Hmem. eexists.
  split; [reflexivity|]. split; [reflexivity|]. split.
  - rewrite query_student_by_id_eq. simpl. now rewrite dict_get_del_eq.
  - intros k Hk. simpl. apply dict_get_del_ne. congruence.
Qed.

(** ** Updating *)

Lemma fold_apply_update_name (updates : list update_item) (t : temp_data) :
  forallb (fun u => negb (sets_name u)) updates = true ->
  t_name (fold_left apply_update updates t) = t_name t.
Proof.
  revert t. induction updates as [|u updates IH]; intros t; simpl; [reflexivity|].
  intros H. apply andb_true_iff in H as [Hu H]. rewrite IH by assumption.
  now destruct u.
Qed.

Lemma fold_apply_update_age (updates : list update_item) (t : temp_data) :
  forallb (fun u => negb (sets_age u)) updates = true ->
  t_age (fold_left apply_update updates t) = t_age t.
Proof.
  revert t. induction updates as [|u updates IH]; intros t; simpl; [reflexivity|].
  intros H. apply andb_true_iff in H as [Hu H]. rewrite IH by assumption.
  now destruct u.
Qed.

Lemma fold_apply_update_gender (updates : list update_item) (t : temp_data) :
  forallb (fun u => negb (sets_gender u)) updates = true ->
  t_gender (fold_left apply_update updates t) = t_gender t.
Proof.
  revert t. induction updates as [|u updates IH]; intros t; simpl; [reflexivity|].
  intros H. apply andb_true_iff in H as [Hu H]. rewrite IH by assumption.
  now destruct u.
Qed.

Lemma fold_apply_update_major (updates : list update_item) (t : temp_data) :
  forallb (fun u => negb (sets_major u)) updates = true ->
  t_major (fold_left apply_update updates t) = t_major t.
Proof.
  revert t. induction updates as [|u updates IH]; intros t; simpl; [reflexivity|].
  intros H. apply andb_true_iff in H as [Hu H]. rewrite IH by assumption.
  now destruct u.
Qed.

(** X3: the record [modify_student] validates and stores keeps the id of
    the stored record always, and keeps the stored value of each of name,
    age, gender and major for which the updates have no item; an item
    with any other key, wherever it stands, changes nothing. *)
Theorem update_keeps_untouched_fields (s : Student) (updates : list update_item) :
  sid (candidate s updates) = sid s
  /\ (forallb (fun u => negb (sets_name u)) updates = true ->
      name (candidate s updates) = name s)
  /\ (forallb (fun u => negb (sets_age u)) updates = true ->
      age (candidate s updates) = age s)
  /\ (forallb (fun u => negb (sets_gender u)) updates = true ->
      gender (candidate s updates) = gender s)
  /\ (forallb (fun u => negb (sets_major u)) updates = true ->
      major (candidate s updates) = major s)
  /\ (forall pre post key,
        candidate s (pre ++ UpdOther key :: post) = candidate s (pre ++ post)).
Proof.
  unfold candidate. simpl. split; [reflexivity|].
  split; [apply fold_apply_update_name|].
  split; [apply fold_apply_update_age|].
  split; [apply fold_apply_update_gender|].
  split; [apply fold_apply_update_major|].
  intros pre post key. now rewrite !fold_left_app.
Qed.

(** X4: when the id is in the store and the stored record with the
    updates applied passes validation, [modify_student] returns normally,
    leaves the world alone, keeps the keys of the store and their order,
    makes a later lookup of the id return the updated record, and changes
    the lookup of no other id. *)
Theorem modify_commits_valid_update (self : StudentManager) (id : string)
    (s : Student) (updates : list update_item) :
  dict_get id (_students self) = Some s ->
  satisfies_all_rules (candidate s updates) = true ->
  exists self',
    modify_student id updates self = (Ok tt, self')
    /\ env self' = env self
    /\ dict_keys (_students self') = dict_keys (_students self)
    /\ query_student_by_id id self' = (Ok (candidate s updates), self')
    /\ forall k, k <> id ->
         dict_get k (_students self') = dict_get k (_students self).
Proof.
  intros Hget Hvalid. apply satisfies_all_rules_spec in Hvalid.
  rewrite modify_student_eq, Hget, validate_spec, Hvalid. eexists.
  split; [reflexivity|]. split; [reflexivity|]. simpl. split; [|split].
  - rewrite dict_keys_set.
    assert (Hmem : dict_mem id (_students self) = true)
      by (apply dict_mem_true; eauto).
    now rewrite Hmem.
  - rewrite query_student_by_id_eq. simpl. now rewrite dict_get_set_eq.
  - intros k Hk. apply dict_get_set_ne. congruence.
Qed.

(** ** Adding, again *)

(** X5: adding a record that passes validation and whose id is new puts
    its id last in the insertion order of the store, leaves the world
    alone and changes the lookup of no other id. *)
Theorem add_appends_and_frames (self : StudentManager) (R : Student) :
  satisfies_all_rules R = true ->
  dict_mem (sid R) (_students self) = false ->
  exists self',
    add_student R self = (Ok tt, self')
    /\ env self' = env self
    /\ dict_keys (_students self') = (dict_keys (_students self) ++ [sid R])%list
    /\ forall k, k <> sid R ->
         dict_get k (_students self') = dict_get k (_students self).
Proof.
  intros Hvalid Hfresh. apply satisfies_all_rules_spec in Hvalid.
  rewrite add_student_eq, Hfresh, validate_spec, Hvalid. eexists.
  split; [reflexivity|]. split; [reflexivity|]. simpl. split.
  - now rewrite dict_keys_set, Hfresh.
  - intros k Hk. apply dict_get_set_ne. congruence.
Qed.

Lemma manager_eta (self : StudentManager) :
  {| _students := _students self; env := env self |} = self.
Proof. now destruct self. Qed.

(** X6: adding a record that passes validation under a new id and then
    deleting that id gives back the manager as it was, the order of the
    store included. *)
Theorem add_then_delete_restores (self : StudentManager) (R : Student) :
  satisfies_all_rules R = true ->
  dict_mem (sid R) (_students self) = false ->
  exists self',
    add_student R self = (Ok tt, self')
    /\ delete_student (sid R) self' = (Ok tt, self).
Proof.
  intros Hvalid Hfresh. apply satisfies_all_rules_spec in Hvalid.
  rewrite add_student_eq, Hfresh, validate_spec, Hvalid. eexists.
  split; [reflexivity|].
  rewrite delete_student_eq. simpl.
  assert (Hmem : dict_mem (sid R) (dict_set (sid R) R (_students self)) = true)
    by (apply dict_mem_true; eexists; apply dict_get_set_eq).
  rewrite Hmem, dict_del_set_fresh by now apply dict_mem_false.
  now rewrite manager_eta.
Qed.

(** X7: a second [add_student] of a record just added raises
    [StudentAlreadyExistsError] and leaves the store as the first add
    made it. *)
Theorem add_twice_fails_second_time (self : StudentManager) (R : Student) :
  satisfies_all_rules R = true ->
  dict_mem (sid R) (_students self) = false ->
  exists self',
    add_student R self = (Ok tt, self')
    /\ add_student R self' = (Raise (StudentAlreadyExistsError (sid R)), self').
Proof.
  intros Hvalid Hfresh. apply satisfies_all_rules_spec in Hvalid.
  rewrite add_student_eq, Hfresh, validate_spec, Hvalid. eexists.
  split; [reflexivity|].
  rewrite add_student_eq. simpl.
  assert (Hmem : dict_mem (sid R) (dict_set (sid R) R (_students self)) = true)
    by (apply dict_mem_true; eexists; apply dict_get_set_eq).
  now rewrite Hmem.
Qed.

(** ** Stored records are valid *)

Lemma all_valid_set (d : dict Student) (k : string) (s : Student) :
  all_valid d -> satisfies_all_rules s = true -> all_valid (dict_set k s d).
Proof.
  intros Hd Hs k0 s0 Hin. apply dict_set_In in Hin as [[_ ->] | Hin]; eauto.
Qed.

Lemma all_valid_del (d : dict Student) (k : string) :
  all_valid d -> all_valid (dict_del k d).
Proof. intros Hd k0 s0 Hin. apply dict_del_In in Hin. eauto. Qed.

Lemma validate_Ok (c : Student) (b : bool) :
  validate c = Ok b -> satisfies_all_rules c = true.
Proof.
  rewrite validate_spec. intros H. apply satisfies_all_rules_spec.
  now destruct (first_violation c).
Qed.

Lemma step_all_valid (self self' : StudentManager) :
  step self self' ->
  all_valid (_students self)
  /\ all_valid (file_contents (data_file (env self))) ->
  all_valid (_students self')
  /\ all_valid (file_contents (data_file (env self'))).
Proof.
  intros Hstep [Hstore Hfile]. destruct Hstep as
    [student self r self' H | id updates self r self' H | id self r self' H
    | self r self' H | d self | self self' w' H].
  - rewrite add_student_eq in H. destruct (dict_mem _ _);
      [injection H as <- <-; auto|].
    destruct (validate student) eqn:Hv; injection H as <- <-; auto.
    simpl. split; [|assumption]. apply all_valid_set; eauto using validate_Ok.
  - rewrite modify_student_eq in H.
    destruct (dict_get id (_students self)) as [s|];
      [|injection H as <- <-; auto].
    destruct (validate _) eqn:Hv; injection H as <- <-; auto.
    simpl. split; [|assumption]. apply all_valid_set; eauto using validate_Ok.
  - rewrite delete_student_eq in H.
    destruct (dict_mem _ _); injection H as <- <-; auto.
    simpl. split; [now apply all_valid_del | assumption].
  - rewrite save_and_exit_StudentStorage in H. injection H as _ <-.
    split; [assumption|]. simpl. unfold StudentStorage.save_data.
    destruct (disk (env self)); simpl; auto. intros k s [].
  - split; assumption.
  - unfold __init__ in H. simpl in H. unfold StudentStorage.load_data in H.
    destruct (data_file (env self)) eqn:Hf; injection H as <- _; simpl;
      rewrite Hf; auto.
Qed.

Lemma reachable_all_valid (self : StudentManager) :
  reachable self ->
  all_valid (_students self)
  /\ all_valid (file_contents (data_file (env self))).
Proof.
  induction 1 as [w self w' Hfresh Hinit | self self' _ IH Hstep].
  - unfold __init__ in Hinit. simpl in Hinit.
    unfold StudentStorage.load_data in Hinit.
    destruct Hfresh as [Hf | [e Hf]]; rewrite Hf in Hinit;
      injection Hinit as <- _; simpl; rewrite Hf; split; intros k s [].
  - eapply step_all_valid; eauto.
Qed.

Lemma student_eta (s : Student) :
  mkStudent (sid s) (name s) (age s) (gender s) (major s) = s.
Proof. now destruct s. Qed.

(** X8: in every state a manager reaches, every stored record passes the
    five validation rules (so its age is between 1 and 150 and its gender
    is Male or Female) and is stored under its own id; hence an update
    with no items of any stored id returns normally and changes
    nothing. *)
Theorem reachable_records_are_valid (self : StudentManager) :
  reachable self ->
  (forall k s,
     dict_get k (_students self) = Some s ->
     satisfies_all_rules s = true /\ sid s = k)
  /\ (forall id,
        dict_mem id (_students self) = true ->
        modify_student id [] self = (Ok tt, self)).
Proof.
  intros Hreach.
  destruct (reachable_all_valid self Hreach) as [Hvalid _].
  destruct (reachable_inv self Hreach) as [[_ Hid] _].
  assert (Hrec : forall k s, dict_get k (_students self) = Some s ->
                   satisfies_all_rules s = true /\ sid s = k)
    by (intros k s Hget; apply dict_get_In in Hget; split; eauto).
  split; [exact Hrec|].
  intros id Hmem. apply dict_mem_true in Hmem as [s Hget].
  destruct (Hrec id s Hget) as [Hs _].
  rewrite modify_student_eq, Hget.
  assert (Hc : candidate s [] = s) by apply student_eta.
  rewrite Hc, validate_spec.
  apply satisfies_all_rules_spec in Hs. rewrite Hs.
  now rewrite dict_set_same, manager_eta.
Qed.

(** ** What the methods raise *)

(** X9: the exceptions of the manager.  [add_student] raises only
    [StudentAlreadyExistsError] for its record's id, when the id is in
    the store, or the [StudentError] of the first violated validation
    rule; [modify_student] only [StudentNotFoundError] for its id or the
    [StudentError] of a validation rule; [delete_student] and
    [query_student_by_id] only [StudentNotFoundError] for their id; all of
    them are [StudentError]s, and a method that raises leaves the manager
    unchanged.  [get_all_students] and [query_students_by_name] never
    raise. *)
Theorem manager_exceptions (self self' : StudentManager) (e : exn) :
  (forall student,
     add_student student self = (Raise e, self') ->
     self' = self /\ is_StudentError e = true
     /\ ((e = StudentAlreadyExistsError (sid student)
          /\ dict_mem (sid student) (_students self) = true)
         \/ exists r, e = StudentError (rule_message r)
                      /\ first_violation student = Some r))
  /\ (forall id updates,
        modify_student id updates self = (Raise e, self') ->
        self' = self /\ is_StudentError e = true
        /\ ((e = StudentNotFoundError id /\ dict_mem id (_students self) = false)
            \/ exists r, e = StudentError (rule_message r)))
  /\ (forall id,
        delete_student id self = (Raise e, self') ->
        self' = self /\ e = StudentNotFoundError id)
  /\ (forall id,
        query_student_by_id id self = (Raise e, self') ->
        self' = self /\ e = StudentNotFoundError id)
  /\ get_all_students self <> (Raise e, self')
  /\ (forall name_part, query_students_by_name name_part self <> (Raise e, self')).
Proof.
  split; [|split; [|split; [|split; [|split]]]].
  - intros student. rewrite add_student_eq.
    destruct (dict_mem _ _) eqn:Hmem.
    + intros [= <- <-]. auto.
    + rewrite validate_spec. destruct (first_violation student) as [r|] eqn:Hr;
        intros [= <- <-]. split; [reflexivity|]. split; [reflexivity|].
      right. now exists r.
  - intros id updates. rewrite modify_student_eq.
    destruct (dict_get id (_students self)) as [s|] eqn:Hget.
    + rewrite validate_spec. destruct (first_violation _) as [r|];
        intros [= <- <-]. split; [reflexivity|]. split; [reflexivity|].
      right. now exists r.
    + intros [= <- <-]. split; [reflexivity|]. split; [reflexivity|].
      left. split; [reflexivity | now apply dict_mem_false].
  - intros id. rewrite delete_student_eq.
    destruct (dict_mem _ _); intros [= <- <-]. auto.
  - intros id. rewrite query_student_by_id_eq.
    destruct (dict_get _ _); intros [= <- <-]. auto.
  - destruct (get_all_students_total self) as (l & Hl & _). rewrite Hl.
    discriminate.
  - intros name_part. unfold query_students_by_name, bind, get_students, ret.
    discriminate.
Qed.

(** ** The reference query agent *)

Lemma extract_eq (text : string) :
  LLMQueryAgent.extract text
  = Params.mk
      (if cs_cue text then Some "Computer Science"
       else if finance_cue text then Some "Finance" else None)
      (if female_cue text then Some "Female"
       else if male_cue text then Some "Male" else None)
      (if age_min_cue text then Some 20 else None)
      (if age_max_cue text then Some 18 else None)
      None.
Proof.
  unfold LLMQueryAgent.extract.
  change (("greater than 20" in_str text) || ("over 20" in_str text)
          || ("20+" in_str text) || ("大于20" in_str text)
          || ("20岁以上" in_str text)) with (age_min_cue text).
  change (("less than 18" in_str text) || ("under 18" in_str text)
          || ("小于18" in_str text) || ("18岁以下" in_str text))
    with (age_max_cue text).
  change (("female" in_str text) || ("girl" in_str text)
          || ("女生" in_str text) || ("女性" in_str text)) with (female_cue text).
  change (("male" in_str text) || ("boy" in_str text)
          || ("男生" in_str text) || ("男性" in_str text)) with (male_cue text).
  change (("computer science" in_str text) || ("cs" in_str text)
          || ("software engineering" in_str text) || ("计算机" in_str text)
          || ("软件工程" in_str text)) with (cs_cue text).
  change (("finance" in_str text) || ("business" in_str text)
          || ("金融" in_str text)) with (finance_cue text).
  destruct (age_min_cue text), (age_max_cue text), (female_cue text),
    (male_cue text), (cs_cue text), (finance_cue text); reflexivity.
Qed.

(** X10: what a successful [parse_query] of the reference agent can
    return: a mapping that is not empty, never with a name part, with
    age_min 20 or absent, age_max 18 or absent, gender Female, Male or
    absent, and major Computer Science, Finance or absent. *)
Theorem parse_query_range (text : string) (p : Params.t) :
  LLMQueryAgent.parse_query text = Ok p ->
  Params.is_empty p = false
  /\ Params.name_part p = None
  /\ (Params.age_min p = None \/ Params.age_min p = Some 20)
  /\ (Params.age_max p = None \/ Params.age_max p = Some 18)
  /\ (Params.gender p = None \/ Params.gender p = Some "Female"
      \/ Params.gender p = Some "Male")
  /\ (Params.major p = None \/ Params.major p = Some "Computer Science"
      \/ Params.major p = Some "Finance").
Proof.
  rewrite parse_query_eq. cbv zeta.
  destruct (Params.is_empty _) eqn:Hempty; [discriminate|].
  intros [= <-]. split; [exact Hempty|]. rewrite extract_eq. simpl.
  set (t := PyStr.lower text).
  destruct (age_min_cue t), (age_max_cue t), (female_cue t), (male_cue t),
    (cs_cue t), (finance_cue t); auto 10.
Qed.

(** X11: the reference agent ignores the case of letters: a text and its
    lower-cased form are parsed alike, and so are any two texts with the
    same lower-cased form. *)
Theorem parse_query_ignores_case (t1 t2 : string) :
  PyStr.lower t1 = PyStr.lower t2 ->
  LLMQueryAgent.parse_query t1 = LLMQueryAgent.parse_query t2
  /\ LLMQueryAgent.parse_query (PyStr.lower t1) = LLMQueryAgent.parse_query t1.
Proof.
  intros H. rewrite !parse_query_eq. cbv zeta.
  now rewrite lower_idem, H.
Qed.

Lemma str_app_assoc (a b c : string) :
  ((a ++ b) ++ c = a ++ (b ++ c))%string.
Proof. induction a as [|x a IH]; simpl; [reflexivity | now rewrite IH]. Qed.

Lemma contains_trans (a b s : string) :
  (a in_str b) = true -> (b in_str s) = true -> (a in_str s) = true.
Proof.
  rewrite !contains_app. intros (p1 & q1 & ->) (p2 & q2 & ->).
  exists (p2 ++ p1)%string, (q1 ++ q2)%string.
  now rewrite !str_app_assoc.
Qed.

(** X12: a text that contains "female", in any case, contains "male" as
    well, and the reference agent reads it as gender Female: the test for
    the female keywords comes first and the male ones are not consulted. *)
Theorem female_takes_precedence (text : string) :
  ("female" in_str PyStr.lower text) = true ->
  ("male" in_str PyStr.lower text) = true
  /\ male_cue (PyStr.lower text) = true
  /\ exists p, LLMQueryAgent.parse_query text = Ok p
               /\ Params.gender p = Some "Female".
Proof.
  intros H.
  assert (Hmale : ("male" in_str PyStr.lower text) = true)
    by (apply (contains_trans "male" "female"); [reflexivity | exact H]).
  split; [exact Hmale|]. split; [unfold male_cue; now rewrite Hmale|].
  rewrite parse_query_eq, extract_eq. cbv zeta.
  assert (Hf : female_cue (PyStr.lower text) = true)
    by (unfold female_cue; now rewrite H).
  rewrite Hf. set (t := PyStr.lower text).
  destruct (cs_cue t), (finance_cue t), (age_min_cue t), (age_max_cue t);
    eexists; (split; [reflexivity|]); reflexivity.
Qed.

(** ** Queries through the manager *)

(** X13: with any query agent, [query_by_natural_language] raises exactly
    when the agent raises, with the agent's own exception; when the agent
    returns a mapping it returns normally, with a selection of the
    records of the store, even when the store is empty or no record
    matches.  Either way the manager is unchanged. *)
Theorem query_fails_only_with_agent (query_agent : IQueryAgent)
    (self : StudentManager) (text : string) :
  (forall e,
     parse_query text = Raise e <->
     query_by_natural_language text self = (Raise e, self))
  /\ (forall p,
        parse_query text = Ok p ->
        exists l,
          query_by_natural_language text self = (Ok l, self)
          /\ incl l (dict_values (_students self))
          /\ (_students self = [] -> l = []))
  /\ snd (query_by_natural_language text self) = self.
Proof.
  rewrite query_by_natural_language_eq.
  destruct (parse_query text) as [p|e]; split; [| split | | split];
    try reflexivity.
  - intros e. split; [discriminate | intros [=]].
  - intros p' [= <-]. eexists. split; [reflexivity|]. split.
    + change (apply_stage p ByNamePart _)
        with (run_stages p stage_order (dict_values (_students self))).
      intros s Hs. now apply run_stages_In in Hs.
    + intros Hempty. now rewrite Hempty.
  - intros e'. split; intros [= <-]; reflexivity.
  - intros p [=].
Qed.

Lemma nil_of_no_member {A} (l : list A) : (forall x, ~ In x l) -> l = [].
Proof. destruct l as [|x l]; [reflexivity|]. intros H. destruct (H x). now left. Qed.

(** X14: with any query agent, a mapping whose age_min is above its
    age_max selects nothing: the query returns the empty list for every
    store.  With the reference agent this is what a text with both an
    "over 20" and an "under 18" cue gets. *)
Theorem contradictory_age_bounds_select_nothing (query_agent : IQueryAgent)
    (self : StudentManager) (text : string) (p : Params.t) (lo hi : Z) :
  parse_query text = Ok p ->
  Params.age_min p = Some lo ->
  Params.age_max p = Some hi ->
  hi < lo ->
  query_by_natural_language text self = (Ok [], self).
Proof.
  intros Hparse Hlo Hhi Hlt. rewrite query_by_natural_language_eq, Hparse.
  do 2 f_equal.
  change (apply_stage p ByNamePart _)
    with (run_stages p stage_order (dict_values (_students self))).
  apply nil_of_no_member. intros s Hs. apply run_stages_In in Hs as [_ Hs].
  pose proof (Hs ByAgeMin (stage_order_complete _) lo Hlo) as H1.
  pose proof (Hs ByAgeMax (stage_order_complete _) hi Hhi) as H2.
  simpl in H1, H2. lia.
Qed.

(** ** The storage *)

Lemma init_StudentStorage (w : world) :
  __init__ (storage := StudentStorage.impl) w
  = (Ok {| _students := file_contents (data_file w);
           env := snd (StudentStorage.load_data w) |},
     snd (StudentStorage.load_data w)).
Proof.
  unfold __init__. simpl. unfold StudentStorage.load_data.
  now destruct (data_file w).
Qed.

(** X15: building a manager over the reference storage never raises:
    the store is what the data file holds, or empty when the file does
    not exist or cannot be read; the file and the disk are left as they
    were and one line is printed. *)
Theorem init_never_raises (w : world) :
  exists line,
    __init__ (storage := StudentStorage.impl) w
    = (Ok {| _students := file_contents (data_file w); env := print line w |},
       print line w)
    /\ data_file (print line w) = data_file w
    /\ disk (print line w) = disk w
    /\ stdout (print line w) = (stdout w ++ [line])%list.
Proof.
  rewrite init_StudentStorage. unfold StudentStorage.load_data.
  destruct (data_file w) eqn:Hf; eexists; (split; [reflexivity|]); auto.
Qed.

(** X16: what a new process finds after [save_and_exit] with the
    reference storage: the saved store when the write went well; what the
    file held before when [open] failed; an empty store when the dump
    failed on the truncated file. *)
Theorem restart_after_save (self : StudentManager) :
  exists self2 w2,
    __init__ (storage := StudentStorage.impl)
      (env (snd (save_and_exit (storage := StudentStorage.impl) self)))
    = (Ok self2, w2)
    /\ _students self2
       = match disk (env self) with
         | DiskOk => _students self
         | OpenFails _ => file_contents (data_file (env self))
         | DumpFails _ _ => []
         end.
Proof.
  rewrite save_and_exit_StudentStorage. simpl.
  rewrite init_StudentStorage. do 2 eexists. split; [reflexivity|]. simpl.
  unfold StudentStorage.save_data. now destruct (disk (env self)).
Qed.

(** X17: [save_and_exit] with the reference storage never changes the
    store, and a second save right after the first leaves the data file
    as the first left it. *)
Theorem save_twice_same_file (self : StudentManager) :
  let once := snd (save_and_exit (storage := StudentStorage.impl) self) in
  let twice := snd (save_and_exit (storage := StudentStorage.impl) once) in
  _students once = _students self
  /\ _students twice = _students self
  /\ data_file (env twice) = data_file (env once).
Proof.
  cbv zeta. rewrite !save_and_exit_StudentStorage. simpl.
  unfold StudentStorage.save_data.
  destruct (disk (env self)) eqn:Hd; simpl; rewrite ?Hd; simpl; auto.
Qed.

(** ** The prompt of the command line *)

Section CliFacts.
Import Cli.

Lemma lstrip_blank (s : string) : blank s = true -> lstrip s = "".
  Proof.
    induction s as [|c s IH]; simpl; [reflexivity|].
    intros H. apply andb_true_iff in H as [Hc Hs]. now rewrite Hc, IH.
  Qed.

Lemma strip_blank (s : string) : blank s = true -> strip s = "".
  Proof. intros H. unfold strip. now rewrite lstrip_blank. Qed.

Lemma digit_value (c : ascii) :
    PyStr.is_digit c = true -> 0 <= Z.of_N (N_of_ascii c) - 48 <= 9.
  Proof.
    unfold PyStr.is_digit. intros H. apply andb_true_iff in H as [H1 H2].
    apply N.leb_le in H1, H2. lia.
  Qed.

Lemma int_of_digits_nonneg (s : string) (acc : Z) :
    0 <= acc -> PyStr.all_chars PyStr.is_digit s = true ->
    0 <= int_of_digits acc s.
  Proof.
    revert acc. induction s as [|c s IH]; intros acc Hacc;
      cbn [int_of_digits PyStr.all_chars]; [auto|].
    intros H. apply andb_true_iff in H as [Hc Hs].
    apply IH; [|assumption]. pose proof (digit_value c Hc). lia.
  Qed.

Lemma int_nonneg (s : string) : isdigit s = true -> 0 <= int s.
  Proof.
    unfold isdigit, int. destruct s as [|c s]; [discriminate|].
    now apply int_of_digits_nonneg.
  Qed.

Lemma prompt_creation_eq (a1 a2 a3 a4 a5 : string) (rest : list string) :
    _prompt_for_student_data None (a1 :: a2 :: a3 :: a4 :: a5 :: rest)
    = (Ok (mkStudent (strip a1) (strip a2)
             (if isdigit (strip a3) then int (strip a3) else 0)
             (strip a4) (strip a5)),
       rest).
  Proof. reflexivity. Qed.

Lemma prompt_modification_eq (current : Student) (a1 a2 a3 a4 : string)
      (rest : list string) :
    _prompt_for_student_data (Some current) (a1 :: a2 :: a3 :: a4 :: rest)
    = (Ok (mkStudent (sid current)
             (str_or (strip a1) (name current))
             (if isdigit (strip a2) then int (strip a2) else age current)
             (str_or (strip a3) (gender current))
             (str_or (strip a4) (major current))),
       rest).
  Proof. reflexivity. Qed.

End CliFacts.

Lemma age_violation_rejected (c : Student) :
  rule_holds RuleAge c = false ->
  exists r, validate c = Raise (StudentError (rule_message r))
            /\ (rule_index r <= 3)%nat.
Proof.
  intros Hage. rewrite validate_spec. unfold first_violation, rule_order.
  cbn [find]. rewrite Hage.
  destruct (rule_holds RuleId c); cbn [negb];
    [|exists RuleId; split; [reflexivity | simpl; lia]].
  destruct (rule_holds RuleName c); cbn [negb];
    [|exists RuleName; split; [reflexivity | simpl; lia]].
  exists RuleAge. split; [reflexivity | simpl; lia].
Qed.

(** X18: when the prompt runs for a modification and the four answers are
    blank (empty or white space only), the data it returns is the current
    record, field for field, and exactly four lines of input are used. *)
Theorem prompt_blank_answers_keep_record (current : Student)
    (a1 a2 a3 a4 : string) (rest : list string) :
  Cli.blank a1 = true -> Cli.blank a2 = true ->
  Cli.blank a3 = true -> Cli.blank a4 = true ->
  Cli._prompt_for_student_data (Some current) (a1 :: a2 :: a3 :: a4 :: rest)
  = (Ok current, rest).
Proof.
  intros H1 H2 H3 H4. rewrite prompt_modification_eq.
  rewrite !strip_blank by assumption. simpl. now rewrite student_eta.
Qed.

(** X19: when the prompt runs for a creation and the five answers are
    ASCII text, the age answer no longer than 4300 characters, it uses
    five lines of input and returns data whose age is never negative;
    when the age answer, stripped, is not made of digits only (it is
    empty, signed, or has a letter or a space inside) the age is 0, and
    the manager's validation raises on that data, reporting the id, the
    name or the age. *)
Theorem prompt_creation_age (a1 a2 a3 a4 a5 : string) (rest : list string) :
  PyStr.is_ascii a1 = true -> PyStr.is_ascii a2 = true ->
  PyStr.is_ascii a3 = true -> PyStr.is_ascii a4 = true ->
  PyStr.is_ascii a5 = true ->
  (String.length a3 <= 4300)%nat ->
  exists data,
    Cli._prompt_for_student_data None (a1 :: a2 :: a3 :: a4 :: a5 :: rest)
    = (Ok data, rest)
    /\ 0 <= age data
    /\ (Cli.isdigit (Cli.strip a3) = false ->
        age data = 0
        /\ exists r, validate data = Raise (StudentError (rule_message r))
                     /\ (rule_index r <= 3)%nat).
Proof.
  intros _ _ _ _ _ _.
  rewrite prompt_creation_eq. eexists. split; [reflexivity|]. simpl. split.
  - destruct (Cli.isdigit (Cli.strip a3)) eqn:Hd; [now apply int_nonneg | lia].
  - intros Hd. rewrite Hd. split; [reflexivity|].
    apply age_violation_rejected. reflexivity.
Qed.

(** X20: when the prompt runs for a modification and the four answers
    are ASCII text, the age answer no longer than 4300 characters, the id
    of the data is the current id whatever is typed, and an age answer
    that, stripped, is not made of digits only leaves the current age. *)
Theorem prompt_modification_keeps_id (current : Student)
    (a1 a2 a3 a4 : string) (rest : list string) :
  PyStr.is_ascii a1 = true -> PyStr.is_ascii a2 = true ->
  PyStr.is_ascii a3 = true -> PyStr.is_ascii a4 = true ->
  (String.length a2 <= 4300)%nat ->
  exists data,
    Cli._prompt_for_student_data (Some current) (a1 :: a2 :: a3 :: a4 :: rest)
    = (Ok data, rest)
    /\ sid data = sid current
    /\ (Cli.isdigit (Cli.strip a2) = false -> age data = age current).
Proof.
  intros _ _ _ _ _.
  rewrite prompt_modification_eq. eexists. split; [reflexivity|]. simpl.
  split; [reflexivity|]. intros Hd. now rewrite Hd.
Qed.

(** ** Searching by name, again *)

Lemma contains_refl (s : string) : (s in_str s) = true.
Proof.
  apply contains_app. exists "", "". simpl.
  induction s as [|c s IH]; simpl; [reflexivity | now rewrite <- IH].
Qed.

(** X21: on ASCII text [query_students_by_name] narrows with its
    argument: when the search texts and the names of the store are ASCII
    and the longer text contains the shorter one, case ignored, every
    record found for the longer text is found for the shorter one; and,
    whatever the text, a stored record is always found by its own
    name. *)
Theorem name_search_narrows (self : StudentManager) :
  (forall short long,
     PyStr.is_ascii short = true -> PyStr.is_ascii long = true ->
     (forall s, In s (dict_values (_students self)) ->
                PyStr.is_ascii (name s) = true) ->
     ci_substring short long ->
     exists l1 l2,
       query_students_by_name short self = (Ok l1, self)
       /\ query_students_by_name long self = (Ok l2, self)
       /\ incl l2 l1)
  /\ (forall s,
        In s (dict_values (_students self)) ->
        exists l, query_students_by_name (name s) self = (Ok l, self)
                  /\ In s l).
Proof.
  unfold query_students_by_name, bind, get_students, ret. split.
  - intros short long Hs Hl Hnames Hsub. apply ci_substring_iff in Hsub.
    do 2 eexists. split; [reflexivity|]. split; [reflexivity|].
    intros s Hin. apply filter_In in Hin as [Hin Hlong]. apply filter_In.
    split; [assumption|]. pose proof (Hnames s Hin) as Hn.
    rewrite !str_lower_ascii in * by assumption.
    eapply contains_trans; eauto.
  - intros s Hin. eexists. split; [reflexivity|]. apply filter_In.
    split; [assumption | apply contains_refl].
Qed.

End Properties.

(** * Runs on concrete data *)

(** The examples, the witnesses of the theorems and the counterexamples
    are computed with [py_model]. *)
#[local] Existing Instance py_model.

(** ** Sample runs of the primitives *)

Example lower_ex : PyStr.lower "Who IS Tall-42" = "who is tall-42".
Proof. reflexivity. Qed.

Example contains_ex :
  ("cs" in_str "physics") = true /\ ("" in_str "") = true /\
  ("male" in_str "all females") = true /\ ("who is" in_str "who was") = false.
Proof. repeat split. Qed.

Example contains_utf8 : ("大于20" in_str "年龄大于20的学生") = true.
Proof. reflexivity. Qed.

Example isalnum_ex :
  PyStr.isalnum "S101" = true /\ PyStr.isalnum "" = false /\
  PyStr.isalnum "S 1" = false /\ PyStr.isalnum "a-b" = false.
Proof. repeat split. Qed.

Example py_model_ex :
  str_lower "Who IS Tall-42" = "who is tall-42"
  /\ str_lower "ΟΔΥΣΣΕΥΣ" = "οδυσσευς" /\ str_lower "Σ" = "σ"
  /\ str_isalnum "S101" = true /\ str_isalnum "S 1" = false
  /\ str_isalnum "" = false.
Proof. repeat split. Qed.

Example parse_females_over_20 :
  LLMQueryAgent.parse_query "all females over 20"
  = Ok (Params.mk None (Some "Female") (Some 20) None None).
Proof. reflexivity. Qed.

Lemma add_duplicate_already_exists_witness :
  dict_mem (sid (mkStudent "S1" "" 0 "x" "")) (_students sample_manager) = true
  /\ add_student (mkStudent "S1" "" 0 "x" "") sample_manager
     = (Raise (StudentAlreadyExistsError "S1"), sample_manager).
Proof.
  split; [reflexivity|].
  apply (add_duplicate_already_exists (U := py_model) sample_manager (mkStudent "S1" "" 0 "x" "")).
  reflexivity.
Defined.

Lemma add_then_query_by_id_witness :
  satisfies_all_rules (mkStudent "S3" "Carol" 31 "Female" "Physics") = true
  /\ dict_mem "S3" (_students sample_manager) = false
  /\ exists self',
       add_student (mkStudent "S3" "Carol" 31 "Female" "Physics") sample_manager
       = (Ok tt, self')
       /\ query_student_by_id "S3" self'
          = (Ok (mkStudent "S3" "Carol" 31 "Female" "Physics"), self').
Proof.
  split; [reflexivity|]. split; [reflexivity|].
  apply (add_then_query_by_id (U := py_model) sample_manager
           (mkStudent "S3" "Carol" 31 "Female" "Physics")); reflexivity.
Defined.

Lemma validation_reports_first_violation_witness :
  (* name and gender are both wrong: the name is reported *)
  rule_holds RuleName (mkStudent "S9" "" 200 "male" "") = false
  /\ add_student (mkStudent "S9" "" 200 "male" "") sample_manager
     = (Raise (StudentError "Name cannot be empty."), sample_manager)
  /\ modify_student "S1" [UpdAge 200; UpdGender "female"; UpdOther "sid"]
       sample_manager
     = (Raise (StudentError "Age must be an integer between 1-150."),
        sample_manager).
Proof.
  split; [reflexivity|]. split.
  - apply (validation_reports_first_violation (U := py_model)
             (mkStudent "S9" "" 200 "male" "") RuleName).
    + reflexivity.
    + intros [] H; simpl in H; try lia; reflexivity.
    + reflexivity.
  - apply (validation_reports_first_violation (U := py_model)
             (mkStudent "S1" "Alice" 200 "female" "Finance") RuleAge)
      with (self := sample_manager) (s := S1).
    + reflexivity.
    + intros [] H; simpl in H; try lia; reflexivity.
    + reflexivity.
    + reflexivity.
Defined.

Lemma get_all_students_sorted_by_id_witness :
  store_inv [("S2", S2); ("S1", S1)]
  /\ get_all_students {| _students := [("S2", S2); ("S1", S1)]; env := sample_world |}
     = (Ok [S1; S2], {| _students := [("S2", S2); ("S1", S1)]; env := sample_world |})
  /\ get_all_students sample_manager = (Ok [S1; S2], sample_manager).
Proof.
  assert (Hinv : store_inv [("S2", S2); ("S1", S1)])
    by (apply store_invb_ok; reflexivity).
  split; [exact Hinv|].
  destruct (get_all_students_sorted_by_id
              {| _students := [("S2", S2); ("S1", S1)]; env := sample_world |})
    as [_ Hsorted].
  destruct (Hsorted Hinv) as (l & Hl & _ & _ & Hany).
  assert (Hrun : get_all_students
                   {| _students := [("S2", S2); ("S1", S1)]; env := sample_world |}
                 = (Ok [S1; S2],
                    {| _students := [("S2", S2); ("S1", S1)]; env := sample_world |}))
    by reflexivity.
  rewrite Hrun in Hl. injection Hl as <-. split; [exact Hrun|].
  apply Hany. simpl. apply perm_swap.
Defined.

Lemma session_manager_reachable : reachable session_manager.
Proof.
  apply (reach_step {| _students := [("S1", S1)]; env := env session_manager |}).
  - apply (reach_step {| _students := []; env := env session_manager |}).
    + apply (reach_start sample_world _ (env session_manager));
        [left; reflexivity | reflexivity].
    + apply (step_add S1 _ (Ok tt)). reflexivity.
  - apply (step_add S2 _ (Ok tt)). reflexivity.
Defined.

Lemma store_invariant_holds_witness :
  reachable session_manager
  /\ store_inv (_students session_manager)
  /\ NoDup (map sid (dict_values (_students session_manager)))
  /\ option_map sid
       (dict_get "S1"
          (_students (snd (modify_student "S1" [UpdAge 26; UpdOther "sid"]
                             session_manager))))
     = Some "S1".
Proof.
  split; [exact session_manager_reachable|].
  destruct (store_invariant_holds (U := py_model) session_manager session_manager_reachable)
    as (Hinv & Hids & Hmod).
  split; [exact Hinv|]. split; [exact Hids|].
  destruct (modify_student "S1" [UpdAge 26; UpdOther "sid"] session_manager)
    as [r self'] eqn:Hrun.
  destruct (Hmod "S1" [UpdAge 26; UpdOther "sid"] r self' Hrun) as [_ Hkeep].
  simpl. rewrite Hkeep. reflexivity.
Defined.

Lemma parse_query_fails_without_parameters_witness :
  Params.is_empty (LLMQueryAgent.extract (PyStr.lower "Tell me About Bob")) = true
  /\ LLMQueryAgent.parse_query "Tell me About Bob"
     = Raise (StudentError
         "LLM failed to extract valid filtering parameters from the natural language input. Please try a more specific query.").
Proof.
  split; [reflexivity|].
  apply (parse_query_fails_without_parameters "Tell me About Bob");
    reflexivity.
Defined.

Example query_students_by_name_ex :
  query_students_by_name "LI" sample_manager = (Ok [S1], sample_manager).
Proof. reflexivity. Qed.

Lemma query_students_by_name_spec_witness :
  PyStr.is_ascii "LI" = true
  /\ PyStr.is_ascii (name S1) = true
  /\ ci_substring "LI" (name S1)
  /\ exists l,
       query_students_by_name "LI" sample_manager = (Ok l, sample_manager)
       /\ In S1 l.
Proof.
  split; [reflexivity|]. split; [reflexivity|].
  assert (Hci : ci_substring "LI" (name S1))
    by (exists "A", "li", "ce"; split; reflexivity).
  split; [exact Hci|].
  destruct (query_students_by_name_spec (U := py_model) sample_manager "LI")
    as [(l & keep & Hrun & _ & _ & Hascii) _].
  exists l. split; [exact Hrun|].
  apply (Hascii S1 eq_refl eq_refl). split; [now left | exact Hci].
Defined.

(** C9 as stated fails: the name of [odysseus] contains the capitals
    "ΥΣΣ" as they stand, and the search for them does not find him: the
    lower-casing of the search text ends in a final sigma, that of the
    name has a medial sigma in that place. *)
Lemma name_search_misses_final_sigma :
  name odysseus = ("ΟΔ" ++ "ΥΣΣ" ++ "ΕΥΣ")%string
  /\ ci_substring "ΥΣΣ" (name odysseus)
  /\ In odysseus (dict_values (_students greek_manager))
  /\ str_lower "ΥΣΣ" = "υσς"
  /\ str_lower (name odysseus) = "οδυσσευς"
  /\ query_students_by_name "ΥΣΣ" greek_manager = (Ok [], greek_manager).
Proof.
  split; [reflexivity|]. split.
  - exists "ΟΔ", "ΥΣΣ", "ΕΥΣ". split; reflexivity.
  - split; [now left|]. repeat split.
Qed.

Lemma query_filter_is_conjunction_witness :
  parse_query (IQueryAgent := LLMQueryAgent.impl) "all females over 20"
  = Ok (Params.mk None (Some "Female") (Some 20) None None)
  /\ query_by_natural_language (query_agent := LLMQueryAgent.impl)
       "all females over 20" sample_manager
     = (Ok [S1], sample_manager)
  /\ run_stages (Params.mk None (Some "Female") (Some 20) None None)
       [ByNamePart; ByAgeMin; ByMajor; ByAgeMax; ByGender] [S1; S2]
     = [S1].
Proof.
  split; [reflexivity|].
  destruct (query_filter_is_conjunction (U := py_model) LLMQueryAgent.impl sample_manager
              "all females over 20"
              (Params.mk None (Some "Female") (Some 20) None None) eq_refl)
    as (l & Hl & _ & Horder & _).
  assert (Hrun : query_by_natural_language (query_agent := LLMQueryAgent.impl)
                   "all females over 20" sample_manager
                 = (Ok [S1], sample_manager)) by reflexivity.
  rewrite Hrun in Hl. injection Hl as <-.
  split; [exact Hrun|].
  apply (Horder [ByNamePart; ByAgeMin; ByMajor; ByAgeMax; ByGender]).
  apply Permutation_cons_app with (l1 := [ByMajor; ByGender; ByAgeMin; ByAgeMax])
                                  (l2 := []).
  apply Permutation_cons_app with (l1 := [ByMajor; ByGender]) (l2 := [ByAgeMax]).
  apply Permutation_cons_app with (l1 := []) (l2 := [ByGender; ByAgeMax]).
  apply perm_swap.
Defined.

Lemma query_by_natural_language_filters_witness :
  parse_query (IQueryAgent := LLMQueryAgent.impl) "female finance students under 18"
  = Ok (Params.mk (Some "Finance") (Some "Female") None (Some 18) None)
  /\ query_by_natural_language (query_agent := LLMQueryAgent.impl)
       "female finance students under 18" sample_manager
     = (Ok [], sample_manager).
Proof.
  split; [reflexivity|].
  destruct (query_by_natural_language_filters (U := py_model) LLMQueryAgent.impl sample_manager
              "female finance students under 18"
              (Params.mk (Some "Finance") (Some "Female") None (Some 18) None)
              eq_refl) as [Hrun _].
  rewrite Hrun. reflexivity.
Defined.

(** C1 as stated fails: the value [query_by_natural_language] returns does
    not carry the parameter mapping.  On the sample store the queries
    "female" and "finance" are parsed into different mappings and return
    the same value, the list of S1 alone. *)
Lemma query_result_omits_parameter_mapping :
  ~ returns_mapping_with_results LLMQueryAgent.impl.
Proof.
  intros [mapping_of H].
  pose proof (H sample_manager "female" [S1] sample_manager eq_refl) as H1.
  pose proof (H sample_manager "finance" [S1] sample_manager eq_refl) as H2.
  rewrite <- H1 in H2. discriminate H2.
Qed.

(** C3 as stated fails: with a disk on which [open] raises, the save of
    the reference storage fails and [save_and_exit] returns normally; the
    only trace is a line on the console. *)
Lemma save_failure_is_not_propagated :
  save_and_exit (storage := StudentStorage.impl)
    {| _students := [("S1", S1)];
       env := mkWorld NoFile (OpenFails "[Errno 13] Permission denied") [] |}
  = (Ok tt,
     {| _students := [("S1", S1)];
        env := mkWorld NoFile (OpenFails "[Errno 13] Permission denied")
                 ["[StudentStorage] Data saving failed: [Errno 13] Permission denied"] |}).
Proof. reflexivity. Qed.

Lemma unknown_id_not_found_witness :
  dict_mem "S7" (_students sample_manager) = false
  /\ modify_student "S7" [UpdAge 30] sample_manager
     = (Raise (StudentNotFoundError "S7"), sample_manager).
Proof.
  split; [reflexivity|].
  apply (unknown_id_not_found (U := py_model) sample_manager "S7" [UpdAge 30]). reflexivity.
Defined.

Lemma delete_removes_only_that_record_witness :
  dict_wf (_students sample_manager)
  /\ dict_mem "S1" (_students sample_manager) = true
  /\ delete_student "S1" sample_manager
     = (Ok tt, {| _students := [("S2", S2)]; env := sample_world |}).
Proof.
  assert (Hwf : dict_wf (_students sample_manager))
    by (apply distinct_NoDup; reflexivity).
  split; [exact Hwf|]. split; [reflexivity|].
  destruct (delete_removes_only_that_record sample_manager "S1" Hwf eq_refl)
    as (self' & Hdel & _).
  rewrite Hdel. f_equal.
  assert (Hrun : delete_student "S1" sample_manager
                 = (Ok tt, {| _students := [("S2", S2)]; env := sample_world |}))
    by reflexivity.
  rewrite Hrun in Hdel. now injection Hdel.
Defined.

Lemma update_keeps_untouched_fields_witness :
  candidate S1 [UpdAge 26; UpdOther "sid"; UpdMajor "Economics"]
  = mkStudent "S1" "Alice" 26 "Female" "Economics"
  /\ name (candidate S1 [UpdAge 26; UpdOther "sid"; UpdMajor "Economics"])
     = name S1.
Proof.
  split; [reflexivity|].
  apply (update_keeps_untouched_fields S1
           [UpdAge 26; UpdOther "sid"; UpdMajor "Economics"]).
  reflexivity.
Defined.

Lemma modify_commits_valid_update_witness :
  dict_get "S2" (_students sample_manager) = Some S2
  /\ satisfies_all_rules (candidate S2 [UpdAge 18; UpdName "Robert"]) = true
  /\ modify_student "S2" [UpdAge 18; UpdName "Robert"] sample_manager
     = (Ok tt,
        {| _students :=
             [("S1", S1);
              ("S2", mkStudent "S2" "Robert" 18 "Male" "Computer Science")];
           env := sample_world |}).
Proof.
  split; [reflexivity|]. split; [reflexivity|].
  destruct (modify_commits_valid_update (U := py_model) sample_manager "S2" S2
              [UpdAge 18; UpdName "Robert"] eq_refl eq_refl)
    as (self' & Hmod & _).
  rewrite Hmod. f_equal.
  assert (Hrun : modify_student "S2" [UpdAge 18; UpdName "Robert"] sample_manager
                 = (Ok tt,
                    {| _students :=
                         [("S1", S1);
                          ("S2", mkStudent "S2" "Robert" 18 "Male" "Computer Science")];
                       env := sample_world |}))
    by reflexivity.
  rewrite Hrun in Hmod. now injection Hmod.
Defined.

Lemma add_appends_and_frames_witness :
  satisfies_all_rules (mkStudent "A0" "Zed" 40 "Male" "Law") = true
  /\ dict_mem "A0" (_students sample_manager) = false
  /\ add_student (mkStudent "A0" "Zed" 40 "Male" "Law") sample_manager
     = (Ok tt,
        {| _students :=
             [("S1", S1); ("S2", S2); ("A0", mkStudent "A0" "Zed" 40 "Male" "Law")];
           env := sample_world |}).
Proof.
  split; [reflexivity|]. split; [reflexivity|].
  destruct (add_appends_and_frames (U := py_model) sample_manager
              (mkStudent "A0" "Zed" 40 "Male" "Law") eq_refl eq_refl)
    as (self' & Hadd & _).
  rewrite Hadd. f_equal.
  assert (Hrun : add_student (mkStudent "A0" "Zed" 40 "Male" "Law") sample_manager
                 = (Ok tt,
                    {| _students :=
                         [("S1", S1); ("S2", S2);
                          ("A0", mkStudent "A0" "Zed" 40 "Male" "Law")];
                       env := sample_world |}))
    by reflexivity.
  rewrite Hrun in Hadd. now injection Hadd.
Defined.

Lemma add_then_delete_restores_witness :
  satisfies_all_rules (mkStudent "A0" "Zed" 40 "Male" "Law") = true
  /\ dict_mem "A0" (_students sample_manager) = false
  /\ delete_student "A0"
       (snd (add_student (mkStudent "A0" "Zed" 40 "Male" "Law") sample_manager))
     = (Ok tt, sample_manager).
Proof.
  split; [reflexivity|]. split; [reflexivity|].
  destruct (add_then_delete_restores (U := py_model) sample_manager
              (mkStudent "A0" "Zed" 40 "Male" "Law") eq_refl eq_refl)
    as (self' & Hadd & Hdel).
  now rewrite Hadd.
Defined.

Lemma add_twice_fails_second_time_witness :
  satisfies_all_rules (mkStudent "A0" "Zed" 40 "Male" "Law") = true
  /\ dict_mem "A0" (_students sample_manager) = false
  /\ fst (add_student (mkStudent "A0" "Zed" 40 "Male" "Law")
            (snd (add_student (mkStudent "A0" "Zed" 40 "Male" "Law")
                    sample_manager)))
     = Raise (StudentAlreadyExistsError "A0").
Proof.
  split; [reflexivity|]. split; [reflexivity|].
  destruct (add_twice_fails_second_time (U := py_model) sample_manager
              (mkStudent "A0" "Zed" 40 "Male" "Law") eq_refl eq_refl)
    as (self' & Hadd & Hagain).
  rewrite Hadd. simpl. now rewrite Hagain.
Defined.

Lemma reachable_records_are_valid_witness :
  reachable session_manager
  /\ modify_student "S2" [] session_manager = (Ok tt, session_manager).
Proof.
  split; [exact session_manager_reachable|].
  apply (reachable_records_are_valid (U := py_model) session_manager session_manager_reachable).
  reflexivity.
Defined.

Lemma manager_exceptions_witness :
  add_student (mkStudent "S1" "Ann" 200 "Female" "Law") sample_manager
  = (Raise (StudentAlreadyExistsError "S1"), sample_manager)
  /\ is_StudentError (StudentAlreadyExistsError "S1") = true.
Proof.
  split; [reflexivity|].
  destruct (manager_exceptions (U := py_model) sample_manager sample_manager
              (StudentAlreadyExistsError "S1")) as [Hadd _].
  destruct (Hadd (mkStudent "S1" "Ann" 200 "Female" "Law") eq_refl)
    as (_ & Hkind & _).
  exact Hkind.
Defined.

Lemma parse_query_range_witness :
  LLMQueryAgent.parse_query "Boys in Business under 18"
  = Ok (Params.mk (Some "Finance") (Some "Male") None (Some 18) None)
  /\ Params.name_part (Params.mk (Some "Finance") (Some "Male") None (Some 18) None)
     = None.
Proof.
  split; [reflexivity|].
  apply (parse_query_range "Boys in Business under 18"
           (Params.mk (Some "Finance") (Some "Male") None (Some 18) None)).
  reflexivity.
Defined.

Lemma parse_query_ignores_case_witness :
  PyStr.lower "ALL Females OVER 20" = PyStr.lower "all females over 20"
  /\ LLMQueryAgent.parse_query "ALL Females OVER 20"
     = LLMQueryAgent.parse_query "all females over 20".
Proof.
  split; [reflexivity|].
  apply (parse_query_ignores_case "ALL Females OVER 20" "all females over 20").
  reflexivity.
Defined.

Lemma female_takes_precedence_witness :
  ("female" in_str PyStr.lower "Male and FEMALE students") = true
  /\ exists p, LLMQueryAgent.parse_query "Male and FEMALE students" = Ok p
               /\ Params.gender p = Some "Female".
Proof.
  split; [reflexivity|].
  apply (female_takes_precedence "Male and FEMALE students"). reflexivity.
Defined.

Lemma query_fails_only_with_agent_witness :
  parse_query (IQueryAgent := LLMQueryAgent.impl) "girls"
  = Ok (Params.mk None (Some "Female") None None None)
  /\ query_by_natural_language (query_agent := LLMQueryAgent.impl) "girls"
       {| _students := []; env := sample_world |}
     = (Ok [], {| _students := []; env := sample_world |}).
Proof.
  split; [reflexivity|].
  destruct (query_fails_only_with_agent (U := py_model) LLMQueryAgent.impl
              {| _students := []; env := sample_world |} "girls")
    as (_ & Hok & _).
  destruct (Hok (Params.mk None (Some "Female") None None None) eq_refl)
    as (l & Hl & _ & Hempty).
  rewrite Hl. now rewrite (Hempty eq_refl).
Defined.

Lemma contradictory_age_bounds_select_nothing_witness :
  parse_query (IQueryAgent := LLMQueryAgent.impl) "over 20 and under 18"
  = Ok (Params.mk None None (Some 20) (Some 18) None)
  /\ query_by_natural_language (query_agent := LLMQueryAgent.impl)
       "over 20 and under 18" sample_manager
     = (Ok [], sample_manager).
Proof.
  split; [reflexivity|].
  apply (contradictory_age_bounds_select_nothing (U := py_model) LLMQueryAgent.impl
           sample_manager "over 20 and under 18"
           (Params.mk None None (Some 20) (Some 18) None) 20 18);
    [reflexivity | reflexivity | reflexivity | lia].
Defined.

Example strip_ex :
  Cli.strip "  Ann Lee	 " = "Ann Lee" /\ Cli.strip "   " = "" /\ Cli.strip "" = ""
  /\ Cli.int "0042" = 42 /\ Cli.isdigit "-5" = false /\ Cli.isdigit "" = false.
Proof. repeat split. Qed.

Example prompt_creation_ex :
  Cli._prompt_for_student_data None
    [" S3 "; "Carol"; "x31"; "Female"; " Physics"; "6"]
  = (Ok (mkStudent "S3" "Carol" 0 "Female" "Physics"), ["6"]).
Proof. reflexivity. Qed.

Lemma prompt_blank_answers_keep_record_witness :
  Cli.blank "" = true /\ Cli.blank "   " = true
  /\ Cli._prompt_for_student_data (Some S1) [""; "   "; ""; " "; "5"]
     = (Ok S1, ["5"]).
Proof.
  split; [reflexivity|]. split; [reflexivity|].
  apply (prompt_blank_answers_keep_record S1 "" "   " "" " " ["5"]);
    reflexivity.
Defined.

Lemma prompt_creation_age_witness :
  PyStr.is_ascii " -5 " = true
  /\ Cli.isdigit (Cli.strip " -5 ") = false
  /\ exists data,
       Cli._prompt_for_student_data None ["S3"; "Carol"; " -5 "; "Female"; "Law"]
       = (Ok data, [])
       /\ age data = 0
       /\ exists r, validate data = Raise (StudentError (rule_message r)).
Proof.
  split; [reflexivity|]. split; [reflexivity|].
  destruct (prompt_creation_age (U := py_model) "S3" "Carol" " -5 " "Female" "Law" []
              eq_refl eq_refl eq_refl eq_refl eq_refl)
    as (data & Hrun & _ & Hbad); [simpl; lia|].
  destruct (Hbad eq_refl) as (Hzero & r & Hval & _).
  exists data. split; [exact Hrun|]. split; [exact Hzero|].
  exists r. exact Hval.
Defined.

Lemma prompt_modification_keeps_id_witness :
  PyStr.is_ascii "twenty" = true
  /\ Cli.isdigit (Cli.strip "twenty") = false
  /\ exists data,
       Cli._prompt_for_student_data (Some S1) ["Alicia"; "twenty"; ""; "Law"]
       = (Ok data, [])
       /\ sid data = "S1" /\ age data = 25.
Proof.
  split; [reflexivity|]. split; [reflexivity|].
  destruct (prompt_modification_keeps_id S1 "Alicia" "twenty" "" "Law" []
              eq_refl eq_refl eq_refl eq_refl)
    as (data & Hrun & Hsid & Hage); [simpl; lia|].
  exists data. split; [exact Hrun|]. split; [exact Hsid|].
  exact (Hage eq_refl).
Defined.

Lemma name_search_narrows_witness :
  PyStr.is_ascii "LI" = true /\ PyStr.is_ascii "Alice" = true
  /\ ci_substring "LI" "Alice"
  /\ query_students_by_name "Alice" sample_manager = (Ok [S1], sample_manager)
  /\ exists l1,
       query_students_by_name "LI" sample_manager = (Ok l1, sample_manager)
       /\ In S1 l1.
Proof.
  split; [reflexivity|]. split; [reflexivity|].
  assert (Hci : ci_substring "LI" "Alice")
    by (exists "A", "li", "ce"; split; reflexivity).
  split; [exact Hci|]. split; [reflexivity|].
  destruct (name_search_narrows (U := py_model) sample_manager) as [Hnarrow _].
  destruct (Hnarrow "LI" "Alice" eq_refl eq_refl) as (l1 & l2 & H1 & H2 & Hincl).
  - intros s [<- | [<- | []]]; reflexivity.
  - exact Hci.
  - exists l1. split; [exact H1|]. apply Hincl.
    assert (Hrun : query_students_by_name "Alice" sample_manager
                   = (Ok [S1], sample_manager)) by reflexivity.
    rewrite Hrun in H2. injection H2 as <-. now left.
Defined.
